(** * StealthScribe AI engine: a shallow embedding of [main.py]

    The two FastAPI endpoints [analyze_corpus] and [generate_with_twin]
    are pure functions of the request, the process-wide dictionary
    [FAKE_USER_DATABASE] and (for the second) the pseudo-random draw.
    They are embedded with explicit state passing: every endpoint takes
    the dictionary and returns the dictionary it leaves behind together
    with either the raised [HTTPException] or the response body.

    Data:
    - a Python [str] is a [string]; its characters are the code points
      below 256, on which [str.isspace] and [str.lower] are tabulated
      below;
    - a Python [float] is the exact rational value of a binary64 number
      (type [Q]); [int / int], [round(x, 2)] and [repr] are computed by
      correct rounding, as CPython does;
    - the dictionary is a [gmap string AuthorialSignatureModel];
    - [set(words)] is a [gset string].

    Console output ([print]) is not part of the model. *)

From Stdlib Require Import ZArith QArith Qpower Ascii String List Lia DecimalString.
From stdpp Require Import gmap strings list fin_maps.

Local Open Scope string_scope.
Local Open Scope Z_scope.

(** ** Python [str] primitives *)

Module PyStr.

(** [str.isspace] on one character: the code points below 256 that
    Python treats as whitespace are 9-13, 28-32, 133 and 160. *)
Definition isspace (c : ascii) : bool :=
  let n := nat_of_ascii c in
  ((9 <=? n)%nat && (n <=? 13)%nat) || ((28 <=? n)%nat && (n <=? 32)%nat)
  || (n =? 133)%nat || (n =? 160)%nat.

(** [str.lower] on one character: A-Z and the Latin-1 capitals 192-222
    (except the multiplication sign 215) move up by 32. *)
Definition lower_char (c : ascii) : ascii :=
  let n := nat_of_ascii c in
  if ((65 <=? n)%nat && (n <=? 90)%nat)
     || ((192 <=? n)%nat && (n <=? 222)%nat && negb (n =? 215)%nat)
  then ascii_of_nat (n + 32) else c.

(** [s.lower()] *)
Fixpoint lower (s : string) : string :=
  match s with
  | EmptyString => EmptyString
  | String c s' => String (lower_char c) (lower s')
  end.

(** Put a character in front of the first word of a list of words. *)
Definition cons_head (c : ascii) (ws : list string) : list string :=
  match ws with
  | w :: ws' => String c w :: ws'
  | [] => [String c EmptyString]
  end.

(** [s.split()]: the maximal runs of non-whitespace characters. *)
Fixpoint split (s : string) : list string :=
  match s with
  | EmptyString => []
  | String c s' =>
      if isspace c then split s'
      else match s' with
           | EmptyString => [String c EmptyString]
           | String c' _ =>
               if isspace c' then String c EmptyString :: split s'
               else cons_head c (split s')
           end
  end.

(** [s.split(sep)] for a one-character separator: always at least one
    fragment, empty fragments kept. *)
Fixpoint split_on (sep : ascii) (s : string) : list string :=
  match s with
  | EmptyString => [EmptyString]
  | String c s' =>
      if Ascii.eqb c sep then EmptyString :: split_on sep s'
      else cons_head c (split_on sep s')
  end.

(** [s.lstrip()], [s.rstrip()] and [s.strip()] *)
Fixpoint lstrip (s : string) : string :=
  match s with
  | EmptyString => EmptyString
  | String c s' => if isspace c then lstrip s' else s
  end.

Fixpoint rstrip (s : string) : string :=
  match s with
  | EmptyString => EmptyString
  | String c s' =>
      match rstrip s' with
      | EmptyString => if isspace c then EmptyString else String c EmptyString
      | r => String c r
      end
  end.

Definition strip (s : string) : string := rstrip (lstrip s).

(** [s.startswith(p)] *)
Fixpoint startswith (p s : string) : bool :=
  match p, s with
  | EmptyString, _ => true
  | String a p', String b s' => Ascii.eqb a b && startswith p' s'
  | String _ _, EmptyString => false
  end.

(** [p in s]: [p] occurs in [s] as a contiguous substring. *)
Fixpoint contains (p s : string) : bool :=
  startswith p s ||
  match s with
  | EmptyString => false
  | String _ s' => contains p s'
  end.

(** [sep.join(l)] *)
Fixpoint join (sep : string) (l : list string) : string :=
  match l with
  | [] => EmptyString
  | [x] => x
  | x :: l' => x ++ sep ++ join sep l'
  end.

(** [str(n)] for an [int] *)
Definition str_int (n : Z) : string := NilZero.string_of_int (Z.to_int n).

(** Whether whitespace or the end of the text comes first. *)
Definition head_space (s : string) : bool :=
  match s with
  | EmptyString => true
  | String c _ => isspace c
  end.

(** A text is blank when it holds whitespace only. *)
Fixpoint blank (s : string) : bool :=
  match s with
  | EmptyString => true
  | String c s' => isspace c && blank s'
  end.

End PyStr.

(** ** Python [float] primitives

    A float is kept as the exact rational it denotes, in lowest terms,
    so that two floats are the same value exactly when they are equal
    terms.  Every operation rounds the exact result to the nearest
    number with a 53-bit significand, ties to even.  The exponent range
    of binary64 is not modelled: the quotients of two string lengths
    (below 2^63) and their two-decimal roundings lie far inside it. *)

Module PyFloat.

Abbreviation float := Q.

(** The integer nearest to [n/d] (for [d > 0]), ties to even. *)
Definition round_half_even (n d : Z) : Z :=
  let q := n / d in
  let r := n mod d in
  match 2 * r ?= d with
  | Lt => q
  | Gt => q + 1
  | Eq => if Z.even q then q else q + 1
  end.

(** The fraction [(n/d) / b^e]. *)
Definition scale (b n d e : Z) : Z * Z :=
  if 0 <=? e then (n, d * b ^ e) else (n * b ^ (- e), d).

(** The exponent [e] with [2^52 <= (n/d) / 2^e < 2^53], for [n, d > 0]. *)
Definition binade (n d : Z) : Z :=
  let k := Z.log2 n - Z.log2 d in
  let '(n', d') := scale 2 n d k in
  if n' <? d' then k - 53 else k - 52.

(** The float [m * 2^e]. *)
Definition ldexp (m e : Z) : float :=
  if 0 <=? e then inject_Z (m * 2 ^ e)
  else Qred (m # Z.to_pos (2 ^ (- e))).

(** The float nearest to [n/d], for [n >= 0] and [d > 0]. *)
Definition nearest (n d : Z) : float :=
  if n <=? 0 then 0%Q
  else
    let e := binade n d in
    let '(n', d') := scale 2 n d e in
    ldexp (round_half_even n' d') e.

(** [a / b] on two non-negative [int]s, [b] not zero. *)
Definition truediv (a b : Z) : float := nearest a b.

(** [round(x, 2)] for [x >= 0]: the decimal with two places nearest to
    the exact value of [x] (ties to even), read back as a float. *)
Definition round2 (x : float) : float :=
  nearest (round_half_even (100 * Qnum x) (Zpos (Qden x))) 100.

(** *** [repr] *)

(** Number of decimal digits of a positive integer. *)
Definition ndigits (n : Z) : Z := Z.of_nat (String.length (PyStr.str_int n)).

(** The [p] with [10^p <= n/d < 10^(p+1)], for [n, d > 0]. *)
Definition decade (n d : Z) : Z :=
  let k := ndigits n - ndigits d in
  let '(n', d') := scale 10 n d k in
  if n' <? d' then k - 1 else k.

(** The float nearest to the decimal [c * 10^q]. *)
Definition of_decimal (c q : Z) : float :=
  let '(n, d) := scale 10 c 1 (- q) in nearest n d.

(** The decimal [c * 10^q] with [nd] significant digits that reads back
    as [x], when there is one: of the two such decimals around [x] the
    nearer is preferred. *)
Definition shortest_at (x : float) (p nd : Z) : option (Z * Z) :=
  let q := p - nd + 1 in
  let '(n, d) := scale 10 (Qnum x) (Zpos (Qden x)) q in
  let near := round_half_even n d in
  let far := if near =? n / d then n / d + 1 else n / d in
  if Qeq_bool (of_decimal near q) x then Some (near, q)
  else if Qeq_bool (of_decimal far q) x then Some (far, q)
  else None.

Fixpoint shortest_from (x : float) (p nd : Z) (fuel : nat) : Z * Z :=
  match fuel with
  | O => (round_half_even (Qnum x) (Zpos (Qden x)), 0)
  | S fuel' =>
      match shortest_at x p nd with
      | Some r => r
      | None => shortest_from x p (nd + 1) fuel'
      end
  end.

(** The shortest decimal that reads back as [x > 0]; 17 significant
    digits always suffice. *)
Definition shortest (x : float) : Z * Z :=
  shortest_from x (decade (Qnum x) (Zpos (Qden x))) 1 17.

Fixpoint zeros (n : nat) : string :=
  match n with
  | O => EmptyString
  | S n' => String "0" (zeros n')
  end.

(** Drop the trailing zeros of a digit string. *)
Fixpoint rstrip0 (s : string) : string :=
  match s with
  | EmptyString => EmptyString
  | String c s' =>
      match rstrip0 s' with
      | EmptyString => if Ascii.eqb c "0" then EmptyString else String c EmptyString
      | r => String c r
      end
  end.

Definition take (n : nat) (s : string) : string := String.substring 0 n s.
Definition drop (n : nat) (s : string) : string :=
  String.substring n (String.length s - n) s.

(** [repr] of a positive float from its digits and the position of the
    decimal point: scientific notation from 1e16 up and below 1e-4. *)
Definition format_short (digits : string) (decpt : Z) : string :=
  let len := Z.of_nat (String.length digits) in
  if (decpt <=? -4) || (16 <? decpt) then
    let e := decpt - 1 in
    let mant :=
      match digits with
      | String c EmptyString => digits
      | String c rest => String c (String "." rest)
      | EmptyString => digits
      end in
    let ea := PyStr.str_int (Z.abs e) in
    mant ++ "e" ++ (if e <? 0 then "-" else "+")
         ++ (if Z.abs e <? 10 then "0" else "") ++ ea
  else if decpt <=? 0 then
    "0." ++ zeros (Z.to_nat (- decpt)) ++ digits
  else if decpt <? len then
    take (Z.to_nat decpt) digits ++ "." ++ drop (Z.to_nat decpt) digits
  else
    digits ++ zeros (Z.to_nat (decpt - len)) ++ ".0".

Definition repr_pos (x : float) : string :=
  let '(c, q) := shortest x in
  let all := PyStr.str_int c in
  format_short (rstrip0 all) (Z.of_nat (String.length all) + q).

(** [repr(x)], which is also [str(x)] and what an f-string prints. *)
Definition repr (x : float) : string :=
  match Qnum x with
  | Z0 => "0.0"
  | Zpos _ => repr_pos x
  | Zneg _ => "-" ++ repr_pos (Qopp x)
  end.

(** *** Exact values, for stating what the operations compute *)

(** The value [n/d] and the powers of two, as rationals. *)
Definition frac (n d : Z) : Q := (inject_Z n / inject_Z d)%Q.
Definition p2 (e : Z) : Q := (2 ^ e)%Q.

End PyFloat.

(** ** Data models *)

Module AnalyzeRequest.
Record t := mk { user_id : string; corpus_text : string }.
End AnalyzeRequest.

Record AuthorialSignatureModel := mkASM {
  avg_sentence_length : PyFloat.float;
  lexical_diversity : PyFloat.float;
  common_phrases : list string
}.

Module GenerateRequest.
Record t := mk { user_id : string; prompt : string; tone_level : Z }.
End GenerateRequest.

Record HTTPException := mkHTTPException { status_code : Z; detail : string }.

(** The body returned by [generate_with_twin]:
    a dictionary with the keys [generated_text] and [aegis_rating], the
    latter a dictionary with the keys [score] and [label]. *)
Record AegisRating := mkAegisRating { score : Z; label : string }.

Record GenerateResponse := mkGenerateResponse {
  generated_text : string;
  aegis_rating : AegisRating
}.

(** [FAKE_USER_DATABASE]: a dictionary from user id to signature model,
    empty when the process starts. *)
Abbreviation Database := (gmap string AuthorialSignatureModel).

Definition FAKE_USER_DATABASE : Database := ∅.

(** [random.randint(a, b)] adds to [a] a number drawn below [b - a + 1];
    the generator is abstracted to the raw number [draw] that this
    number is reduced from. *)
Definition randint (a b : Z) (draw : Z) : Z := a + draw mod (b - a + 1).

Definition dquote : string := String "034"%char EmptyString.
Definition nl : string := String "010"%char EmptyString.

(** ** Phase I endpoint *)

Definition known_phrases : list string :=
  ["in addition,"; "however,"; "for example,"; "it is clear that";
   "on the other hand,"].

Definition analyze_corpus (db : Database) (request : AnalyzeRequest.t)
  : Database * (HTTPException + AuthorialSignatureModel) :=
  let text := AnalyzeRequest.corpus_text request in
  if (length (PyStr.split text) <? 50)%nat then
    (db, inl (mkHTTPException 400
                "Corpus text is too short. Please provide at least 50 words."))
  else
    (* 1. average sentence length *)
    let sentences := PyStr.split_on "." text in
    let sentences :=
      List.filter (fun s => (0 <? String.length (PyStr.strip s))%nat) sentences in
    let total_words := length (PyStr.split text) in
    let avg_len :=
      match sentences with
      | _ :: _ => PyFloat.truediv (Z.of_nat total_words) (Z.of_nat (length sentences))
      | [] => 15%Q
      end in
    (* 2. lexical diversity *)
    let words := PyStr.split (PyStr.lower text) in
    let unique_words : gset string := list_to_set words in
    let diversity :=
      match words with
      | _ :: _ => PyFloat.truediv (Z.of_nat (size unique_words)) (Z.of_nat (length words))
      | [] => (1 # 2)%Q
      end in
    (* 3. common phrases *)
    let found_phrases :=
      List.filter (fun p => PyStr.contains p (PyStr.lower text)) known_phrases in
    let asm :=
      mkASM (PyFloat.round2 avg_len) (PyFloat.round2 diversity) found_phrases in
    (<[AnalyzeRequest.user_id request := asm]> db, inr asm).

(** ** Phase III endpoint *)

Definition tone_map : gmap Z string :=
  list_to_map
    [(0, "extremely formal, academic, and rigid"); (1, "formal and academic");
     (2, "professional and clear"); (3, "engaging and professional");
     (4, "conversational and personal");
     (5, "highly informal, personal, and casual")].

(** [tone_map.get(tone_level, "professional")] *)
Definition tone_phrase (tone_level : Z) : string :=
  default "professional" (tone_map !! tone_level).

(** The text of [system_prompt] before and after the tone phrase. *)
Definition system_prompt_head (asm : AuthorialSignatureModel) : string :=
  nl ++
  "    You are a Forensic Cognitive Analyst. Your task is to write a response" ++ nl ++
  "    that is forensically indistinguishable from the user's own writing." ++ nl ++
  "    You must adopt their " ++ dquote ++ "Authorial Signature Model" ++ dquote ++ " (ASM)." ++ nl ++
  nl ++
  "    DO NOT reveal you are an AI. DO NOT be overly helpful." ++ nl ++
  "    Simply write the text as requested, embodying the user's style." ++ nl ++
  nl ++
  "    USER'S AUTHORIAL SIGNATURE MODEL:" ++ nl ++
  "    - Syntactic Cadence: Write with an average sentence length of approx. "
    ++ PyFloat.repr (avg_sentence_length asm) ++ " words." ++ nl ++
  "    - Lexical Nuance: Maintain a lexical diversity score around "
    ++ PyFloat.repr (lexical_diversity asm) ++ "." ++ nl ++
  "    - Voice Architecture: The user's target tone is: " ++ dquote.

Definition system_prompt_tail (asm : AuthorialSignatureModel) : string :=
  dquote ++ "." ++ nl ++
  "    - Common Phrases: If appropriate, try to use phrases like: "
    ++ PyStr.join ", " (common_phrases asm) ++ nl ++
  "    " ++ nl ++
  "    Your response must *only* be the generated text. No preamble or explanation." ++ nl ++
  "    ".

Definition system_prompt (asm : AuthorialSignatureModel) (tone_level : Z) : string :=
  system_prompt_head asm ++ tone_phrase tone_level ++ system_prompt_tail asm.

Definition generate_with_twin (db : Database) (request : GenerateRequest.t)
    (draw : Z) : Database * (HTTPException + GenerateResponse) :=
  match db !! GenerateRequest.user_id request with
  | None =>
      (db, inl (mkHTTPException 404
                  "User model not found. Please run analysis first."))
  | Some asm =>
      let system_prompt := system_prompt asm (GenerateRequest.tone_level request) in
      (* the [try] block; nothing in it raises, the handler answers 500 *)
      let body : HTTPException + GenerateResponse :=
        let generated_text :=
          "This is a sample text generated in your voice (Tone: "
            ++ PyStr.str_int (GenerateRequest.tone_level request) ++ "). "
            ++ "It respects your average sentence length of "
            ++ PyFloat.repr (avg_sentence_length asm) ++ " words "
            ++ "and your lexical diversity. As you can see, I am obeying the prompt." in
        let aegis_score := randint 85 98 draw in
        let aegis_label :=
          if 90 <=? aegis_score then "Undetectable" else "Likely Human" in
        inr (mkGenerateResponse generated_text
               (mkAegisRating aegis_score aegis_label)) in
      match body with
      | inr r => (db, inr r)
      | inl _ => (db, inl (mkHTTPException 500 "AI generation failed."))
      end
  end.

(** ** The server: a sequence of calls starting from the empty store *)

Inductive Call :=
  | Analyze (request : AnalyzeRequest.t)
  | Generate (request : GenerateRequest.t) (draw : Z).

Definition serve (db : Database) (c : Call) : Database :=
  match c with
  | Analyze r => fst (analyze_corpus db r)
  | Generate r draw => fst (generate_with_twin db r draw)
  end.

Definition run (cs : list Call) : Database := fold_left serve cs FAKE_USER_DATABASE.

(** ** What the endpoints compute *)

(** [len(text.split())] *)
Definition word_count (text : string) : nat := length (PyStr.split text).

(** The fragments between full stops that are not blank. *)
Definition sentences_of (text : string) : list string :=
  List.filter (fun s => (0 <? String.length (PyStr.strip s))%nat)
    (PyStr.split_on "." text).

(** The signature model [analyze_corpus] builds for a long enough text. *)
Definition signature_of (text : string) : AuthorialSignatureModel :=
  let sentences := sentences_of text in
  let avg_len :=
    match sentences with
    | _ :: _ =>
        PyFloat.truediv (Z.of_nat (word_count text)) (Z.of_nat (length sentences))
    | [] => 15%Q
    end in
  let words := PyStr.split (PyStr.lower text) in
  let diversity :=
    match words with
    | _ :: _ =>
        PyFloat.truediv (Z.of_nat (size (list_to_set words : gset string)))
                        (Z.of_nat (length words))
    | [] => (1 # 2)%Q
    end in
  mkASM (PyFloat.round2 avg_len) (PyFloat.round2 diversity)
    (List.filter (fun p => PyStr.contains p (PyStr.lower text)) known_phrases).

Definition too_short : HTTPException :=
  mkHTTPException 400 "Corpus text is too short. Please provide at least 50 words.".

Definition not_found : HTTPException :=
  mkHTTPException 404 "User model not found. Please run analysis first.".

(** The score and the label of a successful generation. *)
Definition rating_of (draw : Z) : AegisRating :=
  let aegis_score := randint 85 98 draw in
  mkAegisRating aegis_score
    (if 90 <=? aegis_score then "Undetectable" else "Likely Human").

(** ** Sample texts *)

Definition numbered_words (n : nat) : list string :=
  map (fun i => "w" ++ PyStr.str_int (Z.of_nat i)) (seq 0 n).

(** "w0 w1 ... w49": fifty distinct words. *)
Definition fifty_words : string := PyStr.join " " (numbered_words 50).

(** Fifty copies of a word made of 201 letters separated by full
    stops: 50 words, 10001 sentences. *)
Definition dotted_text : string :=
  PyStr.join " " (repeat (PyStr.join "." (repeat "a" 201)) 50).

(** A text with three of the known phrases, one of them capitalised. *)
Definition phrased_text : string :=
  "However, " ++ fifty_words ++ " it is clear that, for example, this ends.".

(** A store with one analysed user, and a request of that user with a
    tone level off the scale. *)
Definition sample_db : Database :=
  fst (analyze_corpus FAKE_USER_DATABASE (AnalyzeRequest.mk "u" (fifty_words ++ "."))).

Definition sample_request : GenerateRequest.t :=
  GenerateRequest.mk "u" "Write me a letter." 7.

(** Fifty words that differ pairwise, two of them in case only. *)
Definition cased_words : string := "A a " ++ PyStr.join " " (numbered_words 48).

(** ** Calls that write to the store, texts without a sentence *)

(** A call that changes the store: an analysis of at least 50 words. *)
Definition successful (c : Call) : bool :=
  match c with
  | Analyze r => (50 <=? word_count (AnalyzeRequest.corpus_text r))%nat
  | Generate _ _ => false
  end.


(** The text [generate_with_twin] answers for a tone level and a stored
    average sentence length. *)
Definition sample_text_of (tone_level : Z) (avg : PyFloat.float) : string :=
  "This is a sample text generated in your voice (Tone: "
    ++ PyStr.str_int tone_level ++ "). "
    ++ "It respects your average sentence length of "
    ++ PyFloat.repr avg ++ " words "
    ++ "and your lexical diversity. As you can see, I am obeying the prompt.".


(** Fifty words in one sentence, 26 of them distinct, with a known
    phrase. *)
Definition repeated_text : string :=
  "however, " ++ PyStr.join " " (numbered_words 24) ++ " "
    ++ PyStr.join " " (numbered_words 25) ++ ".".

(** * Facts about the string primitives *)

Module PyStrFacts.
Import PyStr.

Lemma append_cons c (s t : string) : String c s ++ t = String c (s ++ t).
Proof. reflexivity. Qed.

Lemma append_nil_l (s : string) : "" ++ s = s.
Proof. reflexivity. Qed.

Lemma append_nil_r (s : string) : s ++ "" = s.
Proof.
  induction s as [|c s IH]; [reflexivity |].
  now rewrite append_cons, IH.
Qed.

Lemma append_assoc (a b c : string) : (a ++ b) ++ c = a ++ b ++ c.
Proof.
  induction a as [|x a IH]; [reflexivity |].
  now rewrite !append_cons, IH.
Qed.

(** [startswith] and [contains] decide the prefix and substring
    relations. *)
Lemma startswith_spec (p s : string) :
  startswith p s = true <-> exists post, s = p ++ post.
Proof.
  revert s. induction p as [|a p IH]; intros s; simpl.
  - split; [intros _; now exists s | reflexivity].
  - destruct s as [|b s].
    + split; [discriminate | intros [post H]; discriminate].
    + rewrite andb_true_iff, IH. split.
      * intros [Hab [post ->]]. apply Ascii.eqb_eq in Hab. subst b. now exists post.
      * intros [post H]. injection H as -> ->. split; [apply Ascii.eqb_refl | now exists post].
Qed.

Lemma contains_spec (p s : string) :
  contains p s = true <-> exists pre post, s = pre ++ p ++ post.
Proof.
  induction s as [|c s IH].
  - simpl. rewrite orb_false_r, startswith_spec. split.
    + intros [post H]. now exists "", post.
    + intros [pre [post H]]. destruct pre; [now exists post | discriminate].
  - cbn [contains]. rewrite orb_true_iff, startswith_spec, IH. split.
    + intros [[post H] | [pre [post H]]].
      * now exists "", post.
      * exists (String c pre), post. simpl. now rewrite H.
    + intros [pre [post H]]. destruct pre as [|c' pre].
      * left. now exists post.
      * right. simpl in H. injection H as _ H. now exists pre, post.
Qed.

(** Lower-casing keeps whitespace whitespace and the rest not. *)
Lemma isspace_lower_char (c : ascii) : isspace (lower_char c) = isspace c.
Proof. destruct c as [[] [] [] [] [] [] [] []]; reflexivity. Qed.

Lemma map_cons_head (f : string -> string) (g : ascii -> ascii) c ws :
  (forall a w, f (String a w) = String (g a) (f w)) ->
  f "" = "" ->
  map f (cons_head c ws) = cons_head (g c) (map f ws).
Proof. intros Hf H0. destruct ws; simpl; now rewrite Hf, ?H0. Qed.

(** [split] one character at a time: a word ends where whitespace or
    the end of the text follows. *)
Lemma split_cons c s :
  split (String c s) =
  if isspace c then split s
  else if head_space s then String c "" :: split s
  else cons_head c (split s).
Proof. destruct s as [|c' s']; reflexivity. Qed.

Lemma head_space_lower s : head_space (lower s) = head_space s.
Proof. destruct s; [reflexivity | apply isspace_lower_char]. Qed.

(** The words of the lower-cased text are the lower-cased words. *)
Lemma split_lower (s : string) : split (lower s) = map lower (split s).
Proof.
  induction s as [|c s IH]; [reflexivity |].
  change (lower (String c s)) with (String (lower_char c) (lower s)).
  rewrite !split_cons, isspace_lower_char, head_space_lower, IH.
  destruct (isspace c); [reflexivity |].
  destruct (head_space s); [reflexivity |].
  symmetry. now apply map_cons_head.
Qed.

Lemma lstrip_blank s : blank s = true -> lstrip s = "".
Proof.
  induction s as [|c s IH]; simpl; [reflexivity |].
  intros [Hc Hs]%andb_true_iff. rewrite Hc. auto.
Qed.

Lemma lstrip_nonblank s :
  blank s = false -> exists c r, lstrip s = String c r /\ isspace c = false.
Proof.
  induction s as [|c s IH]; simpl; [discriminate |].
  destruct (isspace c) eqn:Hc; simpl; [exact IH | intros _; eauto].
Qed.

Lemma rstrip_nonspace c r : isspace c = false -> rstrip (String c r) <> "".
Proof. intros Hc. simpl. rewrite Hc. destruct (rstrip r); discriminate. Qed.

Lemma strip_empty_iff s : strip s = "" <-> blank s = true.
Proof.
  unfold strip. split.
  - intros H. destruct (blank s) eqn:Hb; [reflexivity |].
    destruct (lstrip_nonblank s Hb) as (c & r & Hl & Hc).
    rewrite Hl in H. now apply rstrip_nonspace in H.
  - intros H. now rewrite lstrip_blank.
Qed.

(** The test [len(s.strip()) > 0] of the sentence filter. *)
Lemma strip_length_pos s :
  (0 <? String.length (strip s))%nat = negb (blank s).
Proof.
  destruct (blank s) eqn:Hb.
  - apply strip_empty_iff in Hb. now rewrite Hb.
  - destruct (strip s) eqn:Hs; [| reflexivity].
    apply strip_empty_iff in Hs. congruence.
Qed.

Lemma split_app_blank s t : blank s = true -> split (s ++ t) = split t.
Proof.
  induction s as [|c s IH]; [reflexivity |].
  cbn [blank]. intros [Hc Hs]%andb_true_iff.
  rewrite append_cons, split_cons, Hc. auto.
Qed.

(** Splitting at the first separator. *)
Lemma split_on_app sep body rest :
  contains (String sep "") body = false ->
  split_on sep (body ++ String sep rest) = body :: split_on sep rest.
Proof.
  induction body as [|c body IH]; intros H.
  - simpl. now rewrite Ascii.eqb_refl.
  - cbn [contains startswith] in H. apply orb_false_iff in H as [Hc Hb].
    rewrite andb_true_r in Hc.
    change (String c body ++ String sep rest) with (String c (body ++ String sep rest)).
    cbn [split_on]. rewrite Ascii.eqb_sym, Hc, IH by exact Hb. reflexivity.
Qed.

End PyStrFacts.

(** * Facts about the float primitives *)

Module PyFloatFacts.
Import PyFloat.

(** ** Rounding a fraction to the nearest integer *)

Ltac div_mod_facts n d :=
  let Hdm := fresh "Hdm" in
  let Hr := fresh "Hr" in
  pose proof (Z.div_mod n d ltac:(lia)) as Hdm;
  pose proof (Z.mod_pos_bound n d ltac:(lia)) as Hr.

Lemma rhe_floor n d : 0 < d -> n / d <= round_half_even n d <= n / d + 1.
Proof.
  intros Hd. unfold round_half_even.
  destruct (2 * (n mod d) ?= d); [destruct (Z.even (n / d)) | |]; lia.
Qed.

Lemma div_mono_frac a b c d :
  0 < b -> 0 < d -> a * d <= c * b -> a / b <= c / d.
Proof.
  intros Hb Hd H. apply Z.div_le_lower_bound; [lia |].
  div_mod_facts a b. nia.
Qed.

(** The nearest integer is monotone in the value of the fraction,
    whatever the representation. *)
Lemma rhe_mono a b c d :
  0 < b -> 0 < d -> a * d <= c * b ->
  round_half_even a b <= round_half_even c d.
Proof.
  intros Hb Hd H.
  pose proof (div_mono_frac a b c d Hb Hd H) as Hq.
  pose proof (rhe_floor a b Hb) as Ha.
  pose proof (rhe_floor c d Hd) as Hc.
  destruct (Z.eq_dec (a / b) (c / d)) as [E | NE]; [| lia].
  div_mod_facts a b. div_mod_facts c d.
  assert (Hrr : (a mod b) * d <= (c mod d) * b) by nia.
  unfold round_half_even. rewrite <- E.
  destruct (Z.compare_spec (2 * (a mod b)) b) as [E1 | L1 | G1];
    destruct (Z.compare_spec (2 * (c mod d)) d) as [E2 | L2 | G2];
    try destruct (Z.even (a / b)); try lia; exfalso; nia.
Qed.

Lemma rhe_exact k d : 0 < d -> round_half_even (k * d) d = k.
Proof.
  intros Hd. unfold round_half_even.
  rewrite Z.div_mul, Z.mod_mul by lia.
  destruct (Z.compare_spec (2 * 0) d); [lia | reflexivity | lia].
Qed.

Lemma rhe_nonneg n d : 0 <= n -> 0 < d -> 0 <= round_half_even n d.
Proof.
  intros Hn Hd. rewrite <- (rhe_exact 0 1) by lia.
  apply rhe_mono; lia.
Qed.

(** ** Exact values *)

Lemma inject_Z_pos d : 0 < d -> (0 < inject_Z d)%Q.
Proof. intros H. change 0%Q with (inject_Z 0). now rewrite <- Zlt_Qlt. Qed.

Lemma inject_Z_nz d : 0 < d -> ~ (inject_Z d == 0)%Q.
Proof. intros H E. apply inject_Z_pos in H. rewrite E in H. discriminate. Qed.

Lemma frac_make n d : 0 < d -> (frac n d == n # Z.to_pos d)%Q.
Proof.
  intros Hd. unfold frac. rewrite (Qmake_Qdiv n (Z.to_pos d)).
  now rewrite Z2Pos.id.
Qed.

Lemma frac_le a b c d :
  0 < b -> 0 < d -> ((frac a b <= frac c d)%Q <-> a * d <= c * b).
Proof.
  intros Hb Hd. rewrite !frac_make by assumption.
  unfold Qle. cbn [Qnum Qden]. now rewrite !Z2Pos.id.
Qed.

Lemma frac_lt a b c d :
  0 < b -> 0 < d -> ((frac a b < frac c d)%Q <-> a * d < c * b).
Proof.
  intros Hb Hd. rewrite !frac_make by assumption.
  unfold Qlt. cbn [Qnum Qden]. now rewrite !Z2Pos.id.
Qed.

Lemma frac_int k : (frac k 1 == inject_Z k)%Q.
Proof. unfold frac. field. Qed.

Lemma frac_Q (x : Q) : (frac (Qnum x) (Zpos (Qden x)) == x)%Q.
Proof. unfold frac. rewrite <- Qmake_Qdiv. now destruct x. Qed.

Lemma p2_pos e : (0 < p2 e)%Q.
Proof. now apply Qpower_0_lt. Qed.

Lemma p2_nz e : ~ (p2 e == 0)%Q.
Proof. intros E. pose proof (p2_pos e) as H. rewrite E in H. discriminate. Qed.

Lemma p2_add a b : (p2 (a + b) == p2 a * p2 b)%Q.
Proof. now apply Qpower_plus. Qed.

Lemma p2_opp a : (p2 (- a) == / p2 a)%Q.
Proof. apply Qpower_opp. Qed.

Lemma p2_le a b : a <= b -> (p2 a <= p2 b)%Q.
Proof. intros H. now apply Qpower_le_compat_l. Qed.

Lemma p2_inject e : 0 <= e -> (inject_Z (2 ^ e) == p2 e)%Q.
Proof. intros H. now rewrite Zpower_Qpower. Qed.

Lemma pow2_pos e : 0 <= e -> 0 < 2 ^ e.
Proof. intros H. now apply Z.pow_pos_nonneg. Qed.

Ltac nz := repeat split; first [apply p2_nz | apply inject_Z_nz; assumption].

(** [scale 2] divides the value by a power of two. *)
Lemma scale2_spec n d e n' d' :
  0 < d -> scale 2 n d e = (n', d') ->
  0 < d' /\ (frac n' d' == frac n d / p2 e)%Q.
Proof.
  intros Hd. unfold scale.
  destruct (Z.leb_spec 0 e) as [He | He]; intros [= <- <-].
  - pose proof (pow2_pos e He) as Hp. split; [lia |].
    unfold frac. rewrite inject_Z_mult, (p2_inject e He).
    field; nz.
  - split; [assumption |].
    unfold frac. rewrite inject_Z_mult, (p2_inject (- e)) by lia.
    rewrite p2_opp. field; nz.
Qed.

(** The float [ldexp m e] has the value [m * 2^e]. *)
Lemma ldexp_spec m e : (ldexp m e == inject_Z m * p2 e)%Q.
Proof.
  unfold ldexp. destruct (Z.leb_spec 0 e) as [He | He].
  - now rewrite inject_Z_mult, (p2_inject e He).
  - rewrite Qred_correct.
    pose proof (pow2_pos (- e) ltac:(lia)) as Hp.
    rewrite <- (frac_make m (2 ^ (- e)) Hp). unfold frac.
    rewrite (p2_inject (- e)) by lia. rewrite p2_opp.
    field; nz.
Qed.

(** ** The binade of a positive fraction *)

Lemma log2_Q n :
  0 < n -> (p2 (Z.log2 n) <= inject_Z n /\ inject_Z n < p2 (Z.log2 n + 1))%Q.
Proof.
  intros Hn. destruct (Z.log2_spec n Hn) as [Hlo Hhi].
  pose proof (Z.log2_nonneg n) as Hl.
  rewrite <- !p2_inject by lia. rewrite <- Zle_Qle, <- Zlt_Qlt.
  split; [exact Hlo | exact Hhi].
Qed.

Lemma frac_pos n d : 0 < n -> 0 < d -> (0 < frac n d)%Q.
Proof.
  intros Hn Hd. apply Qlt_shift_div_l; [now apply inject_Z_pos |].
  rewrite Qmult_0_l. now apply inject_Z_pos.
Qed.

Lemma frac_div_lt_1 n d c :
  0 < d -> (0 < c)%Q -> forall n' d', 0 < d' ->
  (frac n' d' == frac n d / c)%Q -> (n' <? d') = true -> (frac n d < c)%Q.
Proof.
  intros Hd Hc n' d' Hd' E Hlt. apply Z.ltb_lt in Hlt.
  assert (H1 : (frac n' d' < 1)%Q).
  { rewrite <- (frac_int 1). apply (proj2 (frac_lt n' d' 1 1 Hd' ltac:(lia))). lia. }
  rewrite E in H1. apply (Qmult_lt_r _ _ c Hc) in H1.
  rewrite Qmult_1_l in H1. unfold Qdiv in H1.
  rewrite <- Qmult_assoc, (Qmult_comm (/ c)), Qmult_inv_r, Qmult_1_r in H1; [exact H1 |].
  intros Z0. rewrite Z0 in Hc. discriminate.
Qed.

Lemma frac_div_ge_1 n d c :
  0 < d -> (0 < c)%Q -> forall n' d', 0 < d' ->
  (frac n' d' == frac n d / c)%Q -> (n' <? d') = false -> (c <= frac n d)%Q.
Proof.
  intros Hd Hc n' d' Hd' E Hge. apply Z.ltb_ge in Hge.
  assert (H1 : (1 <= frac n' d')%Q).
  { rewrite <- (frac_int 1). apply (proj2 (frac_le 1 1 n' d' ltac:(lia) Hd')). lia. }
  rewrite E in H1. apply (Qmult_le_r _ _ c Hc) in H1.
  rewrite Qmult_1_l in H1. unfold Qdiv in H1.
  rewrite <- Qmult_assoc, (Qmult_comm (/ c)), Qmult_inv_r, Qmult_1_r in H1; [exact H1 |].
  intros Z0. rewrite Z0 in Hc. discriminate.
Qed.

(** [binade n d + 52] is the integer part of the base-2 logarithm of
    [n/d]. *)
Lemma binade_spec n d :
  0 < n -> 0 < d ->
  (p2 (binade n d + 52) <= frac n d /\ frac n d < p2 (binade n d + 53))%Q.
Proof.
  intros Hn Hd.
  destruct (log2_Q n Hn) as [Hn1 Hn2]. destruct (log2_Q d Hd) as [Hd1 Hd2].
  pose proof (inject_Z_pos d Hd) as Hdq.
  set (k := Z.log2 n - Z.log2 d).
  assert (Hlo : (p2 (k - 1) < frac n d)%Q).
  { apply Qlt_shift_div_l; [exact Hdq |].
    apply Qlt_le_trans with (p2 (k - 1) * p2 (Z.log2 d + 1))%Q.
    - apply Qmult_lt_l; [apply p2_pos | exact Hd2].
    - rewrite <- p2_add. replace (k - 1 + (Z.log2 d + 1)) with (Z.log2 n) by (unfold k; lia).
      exact Hn1. }
  assert (Hhi : (frac n d < p2 (k + 1))%Q).
  { apply Qlt_shift_div_r; [exact Hdq |].
    apply Qlt_le_trans with (p2 (k + 1) * p2 (Z.log2 d))%Q.
    - rewrite <- p2_add. replace (k + 1 + Z.log2 d) with (Z.log2 n + 1) by (unfold k; lia).
      exact Hn2.
    - apply Qmult_le_l; [apply p2_pos | exact Hd1]. }
  unfold binade. fold k.
  destruct (scale 2 n d k) as [n' d'] eqn:Hs.
  destruct (scale2_spec _ _ _ _ _ Hd Hs) as [Hd' E].
  destruct (n' <? d') eqn:Hc.
  - replace (k - 53 + 52) with (k - 1) by lia.
    replace (k - 53 + 53) with k by lia.
    split; [now apply Qlt_le_weak |].
    exact (frac_div_lt_1 n d (p2 k) Hd (p2_pos k) n' d' Hd' E Hc).
  - replace (k - 52 + 52) with k by lia.
    replace (k - 52 + 53) with (k + 1) by lia.
    split; [| exact Hhi].
    exact (frac_div_ge_1 n d (p2 k) Hd (p2_pos k) n' d' Hd' E Hc).
Qed.

(** The binade grows with the value. *)
Lemma binade_mono n1 d1 n2 d2 :
  0 < n1 -> 0 < d1 -> 0 < n2 -> 0 < d2 ->
  (frac n1 d1 <= frac n2 d2)%Q -> binade n1 d1 <= binade n2 d2.
Proof.
  intros Hn1 Hd1 Hn2 Hd2 Hle.
  destruct (binade_spec n1 d1 Hn1 Hd1) as [L1 _].
  destruct (binade_spec n2 d2 Hn2 Hd2) as [_ U2].
  destruct (Z_le_gt_dec (binade n1 d1) (binade n2 d2)) as [H | H]; [exact H | exfalso].
  assert (Hp : (p2 (binade n2 d2 + 53) <= p2 (binade n1 d1 + 52))%Q) by (apply p2_le; lia).
  apply (Qlt_irrefl (frac n2 d2)).
  eapply Qlt_le_trans; [exact U2 |].
  eapply Qle_trans; [exact Hp |]. eapply Qle_trans; [exact L1 | exact Hle].
Qed.

(** ** The nearest float *)

(** The significand has exactly 53 bits before it is rounded. *)
Lemma significand_bounds n d n' d' :
  0 < n -> 0 < d -> scale 2 n d (binade n d) = (n', d') ->
  0 < d' /\ 2 ^ 52 * d' <= n' /\ n' < 2 ^ 53 * d'.
Proof.
  intros Hn Hd Hs.
  destruct (scale2_spec _ _ _ _ _ Hd Hs) as [Hd' E].
  destruct (binade_spec n d Hn Hd) as [L U].
  set (e := binade n d) in *.
  split; [exact Hd' |]. split.
  - assert (H : (frac (2 ^ 52) 1 <= frac n' d')%Q).
    { rewrite frac_int, (p2_inject 52) by lia. rewrite E.
      apply Qle_shift_div_l; [apply p2_pos |].
      rewrite <- p2_add. now rewrite Z.add_comm. }
    apply (proj1 (frac_le (2 ^ 52) 1 n' d' ltac:(lia) Hd')) in H. lia.
  - assert (H : (frac n' d' < frac (2 ^ 53) 1)%Q).
    { rewrite frac_int, (p2_inject 53) by lia. rewrite E.
      apply Qlt_shift_div_r; [apply p2_pos |].
      rewrite <- p2_add. now rewrite Z.add_comm. }
    apply (proj1 (frac_lt n' d' (2 ^ 53) 1 Hd' ltac:(lia))) in H. lia.
Qed.

Lemma rounded_significand_bounds n d n' d' :
  0 < n -> 0 < d -> scale 2 n d (binade n d) = (n', d') ->
  2 ^ 52 <= round_half_even n' d' <= 2 ^ 53.
Proof.
  intros Hn Hd Hs.
  destruct (significand_bounds n d n' d' Hn Hd Hs) as (Hd' & L & U).
  split.
  - rewrite <- (rhe_exact (2 ^ 52) d' Hd').
    apply rhe_mono; [lia | lia | apply Z.mul_le_mono_nonneg_r; lia].
  - rewrite <- (rhe_exact (2 ^ 53) d' Hd').
    apply rhe_mono; [lia | lia | apply Z.mul_le_mono_nonneg_r; lia].
Qed.

Lemma nearest_value n d n' d' :
  0 < n -> scale 2 n d (binade n d) = (n', d') ->
  (nearest n d == inject_Z (round_half_even n' d') * p2 (binade n d))%Q.
Proof.
  intros Hn Hs. unfold nearest.
  destruct (Z.leb_spec n 0) as [H | _]; [lia |].
  rewrite Hs. apply ldexp_spec.
Qed.

Lemma nearest_pos n d : 0 < n -> 0 < d -> (0 < nearest n d)%Q.
Proof.
  intros Hn Hd. destruct (scale 2 n d (binade n d)) as [n' d'] eqn:Hs.
  rewrite (nearest_value n d n' d' Hn Hs).
  pose proof (rounded_significand_bounds n d n' d' Hn Hd Hs) as [L _].
  pose proof (pow2_pos 52 ltac:(lia)) as Hp.
  apply Qmult_lt_0_compat; [apply inject_Z_pos; lia | apply p2_pos].
Qed.

Lemma nearest_nonneg n d : 0 < d -> (0 <= nearest n d)%Q.
Proof.
  intros Hd. destruct (Z_lt_le_dec 0 n) as [Hn | Hn].
  - now apply Qlt_le_weak, nearest_pos.
  - unfold nearest. destruct (Z.leb_spec n 0); [apply Qle_refl | lia].
Qed.

(** Rounding to the nearest float is monotone. *)
Theorem nearest_mono n1 d1 n2 d2 :
  0 < d1 -> 0 < d2 -> n1 * d2 <= n2 * d1 ->
  (nearest n1 d1 <= nearest n2 d2)%Q.
Proof.
  intros Hd1 Hd2 H.
  destruct (Z_lt_le_dec 0 n1) as [Hn1 | Hn1].
  2: { unfold nearest at 1. destruct (Z.leb_spec n1 0); [| lia].
       now apply nearest_nonneg. }
  assert (Hn2 : 0 < n2) by nia.
  assert (Hf : (frac n1 d1 <= frac n2 d2)%Q) by (apply (proj2 (frac_le _ _ _ _ Hd1 Hd2)); exact H).
  pose proof (binade_mono n1 d1 n2 d2 Hn1 Hd1 Hn2 Hd2 Hf) as He.
  destruct (scale 2 n1 d1 (binade n1 d1)) as [a1 b1] eqn:Hs1.
  destruct (scale 2 n2 d2 (binade n2 d2)) as [a2 b2] eqn:Hs2.
  rewrite (nearest_value n1 d1 a1 b1 Hn1 Hs1), (nearest_value n2 d2 a2 b2 Hn2 Hs2).
  pose proof (rounded_significand_bounds n1 d1 a1 b1 Hn1 Hd1 Hs1) as [_ U1].
  pose proof (rounded_significand_bounds n2 d2 a2 b2 Hn2 Hd2 Hs2) as [L2 _].
  destruct (scale2_spec _ _ _ _ _ Hd1 Hs1) as [Hb1 E1].
  destruct (scale2_spec _ _ _ _ _ Hd2 Hs2) as [Hb2 E2].
  destruct (Z.eq_dec (binade n1 d1) (binade n2 d2)) as [Eq | Ne].
  - rewrite Eq in *. apply Qmult_le_compat_r; [| apply Qlt_le_weak, p2_pos].
    rewrite <- Zle_Qle. apply rhe_mono; [assumption | assumption |].
    apply (proj1 (frac_le _ _ _ _ Hb1 Hb2)).
    rewrite E1, E2. unfold Qdiv. apply Qmult_le_compat_r; [exact Hf |].
    apply Qlt_le_weak, Qinv_lt_0_compat, p2_pos.
  - apply Qle_trans with (inject_Z (2 ^ 53) * p2 (binade n1 d1))%Q.
    { apply Qmult_le_compat_r; [now rewrite <- Zle_Qle | apply Qlt_le_weak, p2_pos]. }
    apply Qle_trans with (inject_Z (2 ^ 52) * p2 (binade n2 d2))%Q.
    2: { apply Qmult_le_compat_r; [now rewrite <- Zle_Qle | apply Qlt_le_weak, p2_pos]. }
    rewrite (p2_inject 53), (p2_inject 52) by lia. rewrite <- !p2_add.
    apply p2_le. lia.
Qed.

(** ** Rounding to two decimals *)

Lemma round2_nonneg x : (0 <= PyFloat.round2 x)%Q.
Proof. unfold round2. now apply nearest_nonneg. Qed.

Theorem round2_mono x y :
  (0 <= x)%Q -> (x <= y)%Q -> (round2 x <= round2 y)%Q.
Proof.
  intros Hx Hxy. unfold round2.
  apply nearest_mono; [lia | lia |].
  apply Z.mul_le_mono_nonneg_r; [lia |].
  apply rhe_mono; [lia | lia |].
  unfold Qle in Hxy. lia.
Qed.

End PyFloatFacts.

(** * Facts about the endpoints *)

Import PyStr PyStrFacts PyFloat PyFloatFacts.

Lemma analyze_corpus_short db request :
  (word_count (AnalyzeRequest.corpus_text request) < 50)%nat ->
  analyze_corpus db request = (db, inl too_short).
Proof.
  intros H. unfold analyze_corpus, word_count in *.
  destruct (Nat.ltb_spec (length (PyStr.split (AnalyzeRequest.corpus_text request))) 50);
    [reflexivity | lia].
Qed.

Lemma analyze_corpus_long db request :
  (50 <= word_count (AnalyzeRequest.corpus_text request))%nat ->
  analyze_corpus db request =
  (<[AnalyzeRequest.user_id request :=
       signature_of (AnalyzeRequest.corpus_text request)]> db,
   inr (signature_of (AnalyzeRequest.corpus_text request))).
Proof.
  intros H. unfold analyze_corpus, word_count in *.
  destruct (Nat.ltb_spec (length (PyStr.split (AnalyzeRequest.corpus_text request))) 50);
    [lia | reflexivity].
Qed.

Lemma analyze_corpus_inr db request asm :
  snd (analyze_corpus db request) = inr asm ->
  (50 <= word_count (AnalyzeRequest.corpus_text request))%nat /\
  asm = signature_of (AnalyzeRequest.corpus_text request).
Proof.
  intros H.
  destruct (Nat.lt_ge_cases (word_count (AnalyzeRequest.corpus_text request)) 50) as [Hs | Hl].
  - rewrite (analyze_corpus_short db request Hs) in H. discriminate.
  - rewrite (analyze_corpus_long db request Hl) in H. injection H as <-. now split.
Qed.

Lemma generate_with_twin_store db request draw :
  fst (generate_with_twin db request draw) = db.
Proof.
  unfold generate_with_twin.
  now destruct (db !! GenerateRequest.user_id request).
Qed.

Lemma generate_with_twin_inr db request draw r :
  snd (generate_with_twin db request draw) = inr r ->
  is_Some (db !! GenerateRequest.user_id request) /\ aegis_rating r = rating_of draw.
Proof.
  unfold generate_with_twin.
  destruct (db !! GenerateRequest.user_id request) as [asm |]; cbn.
  - intros [= <-]. split; [eauto | reflexivity].
  - discriminate.
Qed.

(** ** A user has a stored model exactly after a successful analysis *)

Lemma serve_lookup db c uid :
  is_Some (serve db c !! uid) <->
  is_Some (db !! uid) \/
  exists r, c = Analyze r /\ AnalyzeRequest.user_id r = uid /\
            (50 <= word_count (AnalyzeRequest.corpus_text r))%nat.
Proof.
  destruct c as [r | r draw]; cbn [serve].
  - destruct (Nat.lt_ge_cases (word_count (AnalyzeRequest.corpus_text r)) 50) as [Hs | Hl].
    + rewrite (analyze_corpus_short db r Hs). cbn [fst]. split; [now left |].
      intros [H | (r' & [= <-] & _ & Hr)]; [exact H | lia].
    + rewrite (analyze_corpus_long db r Hl). cbn [fst].
      destruct (decide (AnalyzeRequest.user_id r = uid)) as [E | NE].
      * rewrite E, lookup_insert_eq. split; [| eauto]. intros _. right. now exists r.
      * rewrite lookup_insert_ne by exact NE. split; [now left |].
        intros [H | (r' & [= <-] & E & _)]; [exact H | contradiction].
  - rewrite generate_with_twin_store. split; [now left |].
    intros [H | (r' & E & _)]; [exact H | discriminate].
Qed.

Lemma fold_serve_lookup cs db uid :
  is_Some (fold_left serve cs db !! uid) <->
  is_Some (db !! uid) \/
  exists r, In (Analyze r) cs /\ AnalyzeRequest.user_id r = uid /\
            (50 <= word_count (AnalyzeRequest.corpus_text r))%nat.
Proof.
  revert db. induction cs as [| c cs IH]; intros db; cbn [fold_left].
  - split; [now left | intros [H | (r & [] & _)]; exact H].
  - rewrite IH, serve_lookup. split.
    + intros [[H | (r & -> & Hu & Hw)] | (r & Hin & Hu & Hw)].
      * now left.
      * right. exists r. split; [now left | now split].
      * right. exists r. split; [now right | now split].
    + intros [H | (r & [-> | Hin] & Hu & Hw)].
      * left. now left.
      * left. right. now exists r.
      * right. now exists r.
Qed.

Lemma run_lookup cs uid :
  is_Some (run cs !! uid) <->
  exists r, In (Analyze r) cs /\ AnalyzeRequest.user_id r = uid /\
            (50 <= word_count (AnalyzeRequest.corpus_text r))%nat.
Proof.
  unfold run, FAKE_USER_DATABASE. rewrite fold_serve_lookup, lookup_empty.
  split; [intros [[x H] | H]; [discriminate | exact H] | now right].
Qed.

(** * The specification's properties *)

(** ** The model on concrete inputs *)

Example split_words :
  PyStr.split ("  In addition,  it" ++ nl ++ "works. ") =
  ["In"; "addition,"; "it"; "works."].
Proof. reflexivity. Qed.

Example split_on_full_stop :
  PyStr.split_on "." "a.b. .c." = ["a"; "b"; " "; "c"; ""].
Proof. reflexivity. Qed.

Example sentences_not_blank : sentences_of "a.b. .c." = ["a"; "b"; "c"].
Proof. reflexivity. Qed.

Example round2_half_even :
  PyFloat.repr (round2 (1 # 8)) = "0.12" /\ PyFloat.repr (round2 (3 # 8)) = "0.38".
Proof. split; vm_compute; reflexivity. Qed.

Example repr_third : PyFloat.repr (truediv 1 3) = "0.3333333333333333".
Proof. vm_compute. reflexivity. Qed.

(** 0.005 as a float lies just above 1/200 and rounds up. *)
Example round2_boundary :
  PyFloat.repr (round2 (truediv 1 200)) = "0.01" /\
  PyFloat.repr (round2 (truediv 50 10001)) = "0.0".
Proof. split; vm_compute; reflexivity. Qed.

Example analyze_phrased_text :
  snd (analyze_corpus FAKE_USER_DATABASE (AnalyzeRequest.mk "u" phrased_text)) =
  inr (mkASM (round2 (truediv 59 1)) (round2 (truediv 59 59))
             ["however,"; "for example,"; "it is clear that"]).
Proof. vm_compute. reflexivity. Qed.

Example generate_sample :
  snd (generate_with_twin sample_db sample_request 3) =
  inr (mkGenerateResponse
         ("This is a sample text generated in your voice (Tone: 7). "
          ++ "It respects your average sentence length of 50.0 words "
          ++ "and your lexical diversity. As you can see, I am obeying the prompt.")
         (mkAegisRating 88 "Likely Human")).
Proof. vm_compute. reflexivity. Qed.

(** ** Errors *)

(** C1: [analyze_corpus] raises exactly when the text has fewer than 50
    whitespace-delimited words; the exception then has status 400 and
    the store is left as it was, so no signature model is returned or
    stored. *)
Theorem analyze_fails_iff_short (db : Database) (request : AnalyzeRequest.t) :
  let wc := word_count (AnalyzeRequest.corpus_text request) in
  ((exists e, snd (analyze_corpus db request) = inl e) <-> (wc < 50)%nat) /\
  (forall e, snd (analyze_corpus db request) = inl e ->
     status_code e = 400 /\ fst (analyze_corpus db request) = db).
Proof.
  cbn zeta.
  destruct (Nat.lt_ge_cases (word_count (AnalyzeRequest.corpus_text request)) 50) as [Hs | Hl].
  - rewrite (analyze_corpus_short db request Hs). cbn [fst snd]. split.
    + split; [intros _; exact Hs | intros _; now exists too_short].
    + intros e [= <-]. now split.
  - rewrite (analyze_corpus_long db request Hl). cbn [fst snd]. split.
    + split; [intros [e H]; discriminate | lia].
    + intros e H. discriminate.
Qed.

(** C2: [generate_with_twin] raises exactly when the store has no entry
    for the user id, and the exception then has status 404.  After any
    sequence of calls from the empty store the user id has an entry
    exactly when one of the calls was a successful analysis for it, so
    a generation before that always raises 404. *)
Theorem generate_fails_iff_unknown_user
    (db : Database) (request : GenerateRequest.t) (draw : Z) (cs : list Call) :
  ((exists e, snd (generate_with_twin db request draw) = inl e) <->
   db !! GenerateRequest.user_id request = None) /\
  (forall e, snd (generate_with_twin db request draw) = inl e -> e = not_found) /\
  ((forall r, In (Analyze r) cs ->
      AnalyzeRequest.user_id r = GenerateRequest.user_id request ->
      (word_count (AnalyzeRequest.corpus_text r) < 50)%nat) ->
   snd (generate_with_twin (run cs) request draw) = inl not_found).
Proof.
  split; [| split].
  - unfold generate_with_twin.
    destruct (db !! GenerateRequest.user_id request) as [asm |]; cbn.
    + split; [intros [e H]; discriminate | discriminate].
    + split; [reflexivity | intros _; now exists not_found].
  - unfold generate_with_twin.
    destruct (db !! GenerateRequest.user_id request) as [asm |]; cbn.
    + discriminate.
    + now intros e [= <-].
  - intros Hnone.
    assert (Hl : run cs !! GenerateRequest.user_id request = None).
    { apply eq_None_not_Some. rewrite run_lookup.
      intros (r & Hin & Hu & Hw). specialize (Hnone r Hin Hu). lia. }
    unfold generate_with_twin. now rewrite Hl.
Qed.

(** ** The rating *)

Lemma randint_range a b draw : a <= b -> a <= randint a b draw <= b.
Proof.
  intros H. unfold randint.
  pose proof (Z.mod_pos_bound draw (b - a + 1) ltac:(lia)). lia.
Qed.

(** C4: the score of a successful generation is an integer between 85
    and 98, and the label is "Undetectable" exactly when the score is
    at least 90, "Likely Human" otherwise. *)
Theorem generate_rating (db : Database) (request : GenerateRequest.t)
    (draw : Z) (r : GenerateResponse) :
  snd (generate_with_twin db request draw) = inr r ->
  85 <= score (aegis_rating r) <= 98 /\
  (label (aegis_rating r) = "Undetectable" <-> 90 <= score (aegis_rating r)) /\
  (score (aegis_rating r) < 90 -> label (aegis_rating r) = "Likely Human").
Proof.
  intros H. apply generate_with_twin_inr in H as [_ ->].
  unfold rating_of. cbn [score label].
  pose proof (randint_range 85 98 draw ltac:(lia)) as Hr.
  destruct (Z.leb_spec 90 (randint 85 98 draw)) as [Hge | Hlt].
  - split; [exact Hr |]. split; [now split | lia].
  - split; [exact Hr |]. split; [split; [discriminate | lia] | reflexivity].
Qed.

Lemma generate_rating_witness :
  exists r,
    snd (generate_with_twin sample_db sample_request 3) = inr r /\
    (85 <= score (aegis_rating r) <= 98 /\
     (label (aegis_rating r) = "Undetectable" <-> 90 <= score (aegis_rating r)) /\
     (score (aegis_rating r) < 90 -> label (aegis_rating r) = "Likely Human")).
Proof.
  eexists. split; [vm_compute; reflexivity |].
  apply (generate_rating sample_db sample_request 3). vm_compute. reflexivity.
Defined.

(** ** Common phrases *)

Lemma filter_sublist {A} (f : A -> bool) (l : list A) :
  sublist (List.filter f l) l.
Proof.
  induction l as [| x l IH]; cbn [List.filter]; [constructor |].
  destruct (f x); now constructor.
Qed.

(** C5: the common phrases of a successful analysis are exactly the
    known phrases that occur as a substring of the lower-cased text,
    in the order of the known-phrase list. *)
Theorem common_phrases_spec (db : Database) (request : AnalyzeRequest.t)
    (asm : AuthorialSignatureModel) :
  snd (analyze_corpus db request) = inr asm ->
  (forall p, In p (common_phrases asm) <->
     In p known_phrases /\
     exists pre post,
       PyStr.lower (AnalyzeRequest.corpus_text request) = pre ++ p ++ post) /\
  sublist (common_phrases asm) known_phrases.
Proof.
  intros H. apply analyze_corpus_inr in H as [_ ->].
  unfold signature_of. cbn [common_phrases]. split.
  - intros p. now rewrite filter_In, contains_spec.
  - apply filter_sublist.
Qed.

Lemma common_phrases_spec_witness :
  (In "however," (common_phrases (signature_of phrased_text)) <->
     In "however," known_phrases /\
     exists pre post, PyStr.lower phrased_text = pre ++ "however," ++ post) /\
  sublist (common_phrases (signature_of phrased_text)) known_phrases.
Proof.
  destruct (common_phrases_spec FAKE_USER_DATABASE
              (AnalyzeRequest.mk "u" phrased_text) (signature_of phrased_text))
    as [Hin Hsub].
  - vm_compute. reflexivity.
  - split; [exact (Hin "however,") | exact Hsub].
Defined.

(** ** Determinism and independence *)

(** C8: the outcome of [analyze_corpus] is a function of the text
    alone: whatever the store and the user id, the same text yields the
    same signature model (or the same error). *)
Theorem analyze_deterministic (db1 db2 : Database) (uid1 uid2 text : string) :
  snd (analyze_corpus db1 (AnalyzeRequest.mk uid1 text)) =
  snd (analyze_corpus db2 (AnalyzeRequest.mk uid2 text)).
Proof.
  destruct (Nat.lt_ge_cases (word_count text) 50) as [Hs | Hl].
  - now rewrite !analyze_corpus_short by exact Hs.
  - now rewrite !analyze_corpus_long by exact Hl.
Qed.

(** C10: [generate_with_twin] never reads the prompt: two requests that
    agree on the user id and the tone level, served from the same store
    with the same random draw, get the same generated text and rating,
    however their prompts differ. *)
Theorem generate_ignores_prompt (db : Database) (r1 r2 : GenerateRequest.t)
    (draw : Z) :
  GenerateRequest.user_id r1 = GenerateRequest.user_id r2 ->
  GenerateRequest.tone_level r1 = GenerateRequest.tone_level r2 ->
  generate_with_twin db r1 draw = generate_with_twin db r2 draw.
Proof.
  destruct r1 as [uid1 prompt1 tone1], r2 as [uid2 prompt2 tone2].
  cbn [GenerateRequest.user_id GenerateRequest.tone_level].
  intros -> ->. reflexivity.
Qed.

Lemma generate_ignores_prompt_witness :
  generate_with_twin sample_db sample_request 3 =
  generate_with_twin sample_db (GenerateRequest.mk "u" "Something else entirely." 7) 3.
Proof. apply generate_ignores_prompt; reflexivity. Defined.

(** ** The tone selector *)

Lemma tone_map_out_of_range tone_level :
  tone_level < 0 \/ 5 < tone_level -> tone_map !! tone_level = None.
Proof.
  intros H. unfold tone_map. cbn [list_to_map foldr fst snd uncurry].
  rewrite !lookup_insert_ne by lia. apply lookup_empty.
Qed.

Lemma tone_map_in_range tone_level :
  0 <= tone_level <= 5 -> is_Some (tone_map !! tone_level).
Proof.
  intros H.
  assert (E : tone_level = 0 \/ tone_level = 1 \/ tone_level = 2 \/
              tone_level = 3 \/ tone_level = 4 \/ tone_level = 5) by lia.
  destruct E as [-> | [-> | [-> | [-> | [-> | ->]]]]]; vm_compute; eauto.
Qed.

(** C9: a tone level outside 0..5 raises nothing and puts the phrase
    "professional" into the system prompt; a tone level in 0..5 puts
    the phrase the six-entry table holds for it. *)
Theorem tone_phrase_default (asm : AuthorialSignatureModel) (tone_level : Z) :
  (tone_level < 0 \/ 5 < tone_level ->
     system_prompt asm tone_level =
     system_prompt_head asm ++ "professional" ++ system_prompt_tail asm) /\
  (0 <= tone_level <= 5 ->
     exists phrase, tone_map !! tone_level = Some phrase /\
       system_prompt asm tone_level =
       system_prompt_head asm ++ phrase ++ system_prompt_tail asm) /\
  (forall db uid prompt draw, db !! uid = Some asm ->
     exists r, generate_with_twin db (GenerateRequest.mk uid prompt tone_level) draw
               = (db, inr r)).
Proof.
  unfold system_prompt, tone_phrase. split; [| split].
  - intros H. now rewrite (tone_map_out_of_range tone_level H).
  - intros H. destruct (tone_map_in_range tone_level H) as [phrase E].
    exists phrase. now rewrite E.
  - intros db uid prompt draw H. unfold generate_with_twin.
    cbn [GenerateRequest.user_id]. rewrite H. eauto.
Qed.

(** ** The two ratios *)

Lemma round2_const_pos : (0 < round2 (truediv 1 200))%Q.
Proof. vm_compute. reflexivity. Qed.

Lemma round2_one : round2 (truediv 1 1) = 1%Q.
Proof. vm_compute. reflexivity. Qed.

Lemma size_list_to_set_le (l : list string) :
  (size (list_to_set l : gset string) <= length l)%nat.
Proof.
  induction l as [| x l IH]; [now rewrite list_to_set_nil, size_empty |].
  rewrite list_to_set_cons, size_union_alt, size_singleton. cbn [length].
  assert (Hsub : (list_to_set l : gset string) ∖ {[x]} ⊆ list_to_set l)
    by (intros y Hy; apply elem_of_difference in Hy; tauto).
  apply subseteq_size in Hsub. lia.
Qed.

(** C3 fails as stated ("average_sentence_length is always above
    zero"): a word may hold any number of full stops, so a text can have more
    than 200 times as many sentences as words, and the ratio then
    rounds to 0.0. *)
Lemma avg_sentence_length_can_be_zero :
  exists asm,
    snd (analyze_corpus FAKE_USER_DATABASE (AnalyzeRequest.mk "u" dotted_text)) = inr asm /\
    avg_sentence_length asm = 0%Q.
Proof. eexists. split; vm_compute; reflexivity. Qed.

(** C3 (amended): the average sentence length of a successful analysis
    is never negative, and it is above zero whenever the text has at
    most 200 times as many non-blank sentences as words. *)
Theorem avg_sentence_length_sign (db : Database) (request : AnalyzeRequest.t)
    (asm : AuthorialSignatureModel) :
  snd (analyze_corpus db request) = inr asm ->
  let text := AnalyzeRequest.corpus_text request in
  (0 <= avg_sentence_length asm)%Q /\
  ((length (sentences_of text) <= 200 * word_count text)%nat ->
   (0 < avg_sentence_length asm)%Q).
Proof.
  intros H text. apply analyze_corpus_inr in H as [Hwc ->]. fold text in Hwc.
  unfold signature_of. cbn [avg_sentence_length]. fold text.
  split; [apply round2_nonneg |].
  destruct (sentences_of text) as [| s l] eqn:Hs.
  - intros _. vm_compute. reflexivity.
  - intros Hle. cbn [length] in *.
    eapply Qlt_le_trans; [exact round2_const_pos |].
    apply round2_mono.
    + apply nearest_nonneg. lia.
    + apply nearest_mono; lia.
Qed.

Lemma avg_sentence_length_sign_witness :
  (0 <= avg_sentence_length (signature_of (fifty_words ++ ".")))%Q /\
  (0 < avg_sentence_length (signature_of (fifty_words ++ ".")))%Q.
Proof.
  destruct (avg_sentence_length_sign FAKE_USER_DATABASE
              (AnalyzeRequest.mk "u" (fifty_words ++ "."))
              (signature_of (fifty_words ++ "."))) as [H0 H1].
  - vm_compute. reflexivity.
  - split; [exact H0 | apply H1]. vm_compute. lia.
Defined.

(** C7: the lexical diversity of a successful analysis lies between 0
    and 1; it is the number of distinct lower-cased words divided by
    the number of words, rounded to two decimals. *)
Theorem lexical_diversity_range (db : Database) (request : AnalyzeRequest.t)
    (asm : AuthorialSignatureModel) :
  snd (analyze_corpus db request) = inr asm ->
  let words := PyStr.split (PyStr.lower (AnalyzeRequest.corpus_text request)) in
  (0 <= lexical_diversity asm)%Q /\ (lexical_diversity asm <= 1)%Q /\
  lexical_diversity asm =
    round2 (truediv (Z.of_nat (size (list_to_set words : gset string)))
                    (Z.of_nat (length words))).
Proof.
  intros H words. apply analyze_corpus_inr in H as [Hwc ->].
  unfold signature_of. cbn [lexical_diversity]. fold words.
  assert (Hlen : (50 <= length words)%nat).
  { unfold words. rewrite split_lower, length_map. exact Hwc. }
  pose proof (size_list_to_set_le words) as Hsz.
  destruct words as [| w ws] eqn:Hw; [cbn in Hlen; lia |]. rewrite <- Hw in *.
  split; [apply round2_nonneg |]. split; [| reflexivity].
  rewrite <- round2_one. apply round2_mono.
  - apply nearest_nonneg. lia.
  - apply nearest_mono; lia.
Qed.

Lemma lexical_diversity_range_witness :
  (0 <= lexical_diversity (signature_of (fifty_words ++ ".")))%Q /\
  (lexical_diversity (signature_of (fifty_words ++ ".")) <= 1)%Q.
Proof.
  destruct (lexical_diversity_range FAKE_USER_DATABASE
              (AnalyzeRequest.mk "u" (fifty_words ++ "."))
              (signature_of (fifty_words ++ "."))) as (H0 & H1 & _).
  - vm_compute. reflexivity.
  - split; [exact H0 | exact H1].
Defined.

(** ** Fifty distinct words and one full stop *)

Lemma filter_none {A} (f : A -> bool) (l : list A) :
  (forall x, In x l -> f x = false) -> List.filter f l = [].
Proof.
  induction l as [| x l IH]; intros H; [reflexivity |].
  cbn [List.filter]. rewrite (H x) by now left.
  apply IH. intros y Hy. apply H. now right.
Qed.

(** A text that ends in its only full stop is one sentence, unless
    nothing but whitespace comes before the full stop. *)
Lemma sentences_of_one body :
  PyStr.contains "." body = false -> blank body = false ->
  sentences_of (body ++ ".") = [body].
Proof.
  intros Hdot Hb. unfold sentences_of.
  rewrite (split_on_app "." body "" Hdot).
  cbn [split_on List.filter]. rewrite !strip_length_pos, Hb. reflexivity.
Qed.

(** C6 fails as stated: words that differ in case only are distinct
    words, but they are one lower-cased token, so the lexical
    diversity of such a text is below 1. *)
Lemma fifty_distinct_words_case_variants :
  let text := cased_words ++ "." in
  PyStr.contains "." cased_words = false /\
  word_count text = 50%nat /\
  NoDup (PyStr.split text) /\
  Forall (fun p => PyStr.contains p text = false /\
                   PyStr.contains p (PyStr.lower text) = false) known_phrases /\
  exists asm,
    snd (analyze_corpus FAKE_USER_DATABASE (AnalyzeRequest.mk "u" text)) = inr asm /\
    ~ (lexical_diversity asm == 1)%Q.
Proof.
  cbn zeta. split; [vm_compute; reflexivity |]. split; [vm_compute; reflexivity |].
  split; [apply (bool_decide_unpack _); vm_compute; exact I |].
  split; [repeat constructor; vm_compute; reflexivity |].
  eexists. split; [vm_compute; reflexivity |].
  vm_compute. discriminate.
Qed.

(** C6 (amended): for a text of exactly 50 words that stay pairwise
    distinct once lower-cased, with its only full stop at the end and
    no known phrase in its lower-cased form, the analysis succeeds with
    average sentence length 50.0 (one sentence), lexical diversity 1.0
    and no common phrases. *)
Theorem fifty_distinct_words (db : Database) (uid body : string) :
  let text := body ++ "." in
  PyStr.contains "." body = false ->
  word_count text = 50%nat ->
  NoDup (map PyStr.lower (PyStr.split text)) ->
  (forall p, In p known_phrases -> PyStr.contains p (PyStr.lower text) = false) ->
  length (sentences_of text) = 1%nat /\
  analyze_corpus db (AnalyzeRequest.mk uid text) =
    (<[uid := mkASM 50 1 []]> db, inr (mkASM 50 1 [])).
Proof.
  intros text Hdot Hwc Hnd Hph.
  assert (Hb : blank body = false).
  { destruct (blank body) eqn:Hb; [| reflexivity].
    unfold word_count, text in Hwc. rewrite (split_app_blank body "." Hb) in Hwc.
    discriminate. }
  pose proof (sentences_of_one body Hdot Hb) as Hs. fold text in Hs.
  split; [now rewrite Hs |].
  rewrite analyze_corpus_long by (cbn [AnalyzeRequest.corpus_text]; lia).
  cbn [AnalyzeRequest.corpus_text AnalyzeRequest.user_id].
  assert (E : signature_of text = mkASM 50 1 []); [| now rewrite E].
  unfold signature_of. rewrite Hs, Hwc, split_lower, (filter_none _ _ Hph).
  rewrite (size_list_to_set _ Hnd), length_map. fold (word_count text). rewrite Hwc.
  destruct (PyStr.split text) as [| w ws] eqn:Hw;
    [unfold word_count in Hwc; rewrite Hw in Hwc; discriminate Hwc |].
  cbn [map length Z.of_nat]. vm_compute. reflexivity.
Qed.

Lemma fifty_distinct_words_witness :
  length (sentences_of (fifty_words ++ ".")) = 1%nat /\
  analyze_corpus FAKE_USER_DATABASE (AnalyzeRequest.mk "u" (fifty_words ++ ".")) =
    (<["u" := mkASM 50 1 []]> FAKE_USER_DATABASE, inr (mkASM 50 1 [])).
Proof.
  apply (fifty_distinct_words FAKE_USER_DATABASE "u" fifty_words).
  - vm_compute. reflexivity.
  - vm_compute. reflexivity.
  - apply (bool_decide_unpack _). vm_compute. exact I.
  - intros p Hp. cbn in Hp.
    destruct Hp as [<- | [<- | [<- | [<- | [<- | []]]]]]; vm_compute; reflexivity.
Defined.

(** * Further properties of the endpoints *)

(** ** The store *)

Lemma generate_with_twin_some db request draw asm :
  db !! GenerateRequest.user_id request = Some asm ->
  generate_with_twin db request draw =
  (db, inr (mkGenerateResponse
              (sample_text_of (GenerateRequest.tone_level request)
                              (avg_sentence_length asm))
              (rating_of draw))).
Proof. intros H. unfold generate_with_twin. now rewrite H. Qed.

Lemma generate_with_twin_none db request draw :
  db !! GenerateRequest.user_id request = None ->
  generate_with_twin db request draw = (db, inl not_found).
Proof. intros H. unfold generate_with_twin. now rewrite H. Qed.

(** X1: an analysis of at least 50 words followed by a generation for
    the same user succeeds, and the generated text quotes the tone
    level of the request and the average sentence length of the text
    just analysed. *)
Theorem analyze_then_generate (db : Database) (uid text prompt : string)
    (tone_level draw : Z) :
  (50 <= word_count text)%nat ->
  snd (generate_with_twin (fst (analyze_corpus db (AnalyzeRequest.mk uid text)))
         (GenerateRequest.mk uid prompt tone_level) draw) =
  inr (mkGenerateResponse
         (sample_text_of tone_level (avg_sentence_length (signature_of text)))
         (rating_of draw)).
Proof.
  intros Hl. rewrite analyze_corpus_long by exact Hl. cbn [fst AnalyzeRequest.user_id
    AnalyzeRequest.corpus_text].
  erewrite generate_with_twin_some; [reflexivity |].
  cbn [GenerateRequest.user_id]. apply lookup_insert_eq.
Qed.

Lemma analyze_then_generate_witness :
  snd (generate_with_twin
         (fst (analyze_corpus FAKE_USER_DATABASE (AnalyzeRequest.mk "u" (fifty_words ++ "."))))
         (GenerateRequest.mk "u" "Write me a letter." 7) 3) =
  inr (mkGenerateResponse
         (sample_text_of 7 (avg_sentence_length (signature_of (fifty_words ++ "."))))
         (rating_of 3)).
Proof. apply analyze_then_generate. vm_compute. lia. Defined.

(** X2: an analysis for one user never changes what a generation for
    another user returns. *)
Theorem analyze_isolation (db : Database) (r : AnalyzeRequest.t)
    (g : GenerateRequest.t) (draw : Z) :
  GenerateRequest.user_id g <> AnalyzeRequest.user_id r ->
  snd (generate_with_twin (fst (analyze_corpus db r)) g draw) =
  snd (generate_with_twin db g draw).
Proof.
  intros Hne.
  destruct (Nat.lt_ge_cases (word_count (AnalyzeRequest.corpus_text r)) 50) as [Hs | Hl].
  - now rewrite analyze_corpus_short by exact Hs.
  - rewrite analyze_corpus_long by exact Hl. cbn [fst].
    unfold generate_with_twin. rewrite lookup_insert_ne by congruence.
    now destruct (db !! GenerateRequest.user_id g).
Qed.

Lemma analyze_isolation_witness :
  snd (generate_with_twin
         (fst (analyze_corpus sample_db (AnalyzeRequest.mk "v" phrased_text)))
         sample_request 3) =
  snd (generate_with_twin sample_db sample_request 3).
Proof. apply analyze_isolation. discriminate. Defined.

(** X3: the last analysis wins: once a user's text of at least 50 words
    is analysed, the store is the same as if the analysis before it for
    the same user had never been made. *)
Theorem analyze_overwrites (db : Database) (r1 r2 : AnalyzeRequest.t) :
  AnalyzeRequest.user_id r1 = AnalyzeRequest.user_id r2 ->
  (50 <= word_count (AnalyzeRequest.corpus_text r2))%nat ->
  fst (analyze_corpus (fst (analyze_corpus db r1)) r2) = fst (analyze_corpus db r2).
Proof.
  intros Hu Hl. rewrite !(analyze_corpus_long _ r2) by exact Hl. cbn [fst].
  destruct (Nat.lt_ge_cases (word_count (AnalyzeRequest.corpus_text r1)) 50) as [Hs1 | Hl1].
  - now rewrite analyze_corpus_short by exact Hs1.
  - rewrite analyze_corpus_long by exact Hl1. cbn [fst].
    rewrite Hu. apply insert_insert_eq.
Qed.

Lemma analyze_overwrites_witness :
  fst (analyze_corpus
         (fst (analyze_corpus FAKE_USER_DATABASE (AnalyzeRequest.mk "u" phrased_text)))
         (AnalyzeRequest.mk "u" (fifty_words ++ "."))) =
  fst (analyze_corpus FAKE_USER_DATABASE (AnalyzeRequest.mk "u" (fifty_words ++ "."))).
Proof. apply analyze_overwrites; [reflexivity | vm_compute; lia]. Defined.

(** ** Histories *)

Lemma serve_unsuccessful db c : successful c = false -> serve db c = db.
Proof.
  destruct c as [r | g draw]; cbn [successful serve]; intros H.
  - apply Nat.leb_gt in H. now rewrite analyze_corpus_short.
  - apply generate_with_twin_store.
Qed.

(** X4: generations and rejected analyses leave no trace: from any
    store, a history of calls leaves the store that its analyses of at
    least 50 words alone leave. *)
Theorem history_successful_only (cs : list Call) (db : Database) :
  fold_left serve cs db = fold_left serve (List.filter successful cs) db /\
  run cs = run (List.filter successful cs).
Proof.
  assert (H : forall db', fold_left serve cs db' =
                          fold_left serve (List.filter successful cs) db').
  { induction cs as [| c cs IH]; intros db'; [reflexivity |].
    cbn [fold_left List.filter]. destruct (successful c) eqn:Hc.
    - cbn [fold_left]. apply IH.
    - rewrite (serve_unsuccessful db' c Hc). apply IH. }
  split; [apply H | apply H].
Qed.

Lemma serve_lookup_other db c uid :
  (forall r, c = Analyze r -> AnalyzeRequest.user_id r = uid ->
     (word_count (AnalyzeRequest.corpus_text r) < 50)%nat) ->
  serve db c !! uid = db !! uid.
Proof.
  intros H. destruct c as [r | g draw]; cbn [serve].
  - destruct (Nat.lt_ge_cases (word_count (AnalyzeRequest.corpus_text r)) 50) as [Hs | Hl].
    + now rewrite analyze_corpus_short by exact Hs.
    + rewrite analyze_corpus_long by exact Hl. cbn [fst].
      apply lookup_insert_ne. intros E. specialize (H r eq_refl E). lia.
  - now rewrite generate_with_twin_store.
Qed.

Lemma fold_serve_lookup_other cs db uid :
  (forall r, In (Analyze r) cs -> AnalyzeRequest.user_id r = uid ->
     (word_count (AnalyzeRequest.corpus_text r) < 50)%nat) ->
  fold_left serve cs db !! uid = db !! uid.
Proof.
  revert db. induction cs as [| c cs IH]; intros db H; [reflexivity |].
  cbn [fold_left]. rewrite IH.
  - apply serve_lookup_other. intros r -> Hu. apply (H r); [now left | exact Hu].
  - intros r Hin Hu. apply (H r); [now right | exact Hu].
Qed.

(** X5: last write wins over whole histories: the stored model of a
    user is the one of the user's last analysis of at least 50 words,
    whatever was called before it and whatever else was called after. *)
Theorem run_last_analysis (cs1 cs2 : list Call) (r : AnalyzeRequest.t) :
  (50 <= word_count (AnalyzeRequest.corpus_text r))%nat ->
  (forall r', In (Analyze r') cs2 ->
     AnalyzeRequest.user_id r' = AnalyzeRequest.user_id r ->
     (word_count (AnalyzeRequest.corpus_text r') < 50)%nat) ->
  run (cs1 ++ Analyze r :: cs2) !! AnalyzeRequest.user_id r =
  Some (signature_of (AnalyzeRequest.corpus_text r)).
Proof.
  intros Hl Hlater. unfold run. rewrite fold_left_app. cbn [fold_left].
  rewrite (fold_serve_lookup_other cs2 _ _ Hlater). cbn [serve].
  rewrite analyze_corpus_long by exact Hl. apply lookup_insert_eq.
Qed.

Lemma run_last_analysis_witness :
  run ([Analyze (AnalyzeRequest.mk "u" phrased_text)]
         ++ Analyze (AnalyzeRequest.mk "u" (fifty_words ++ "."))
         :: [Generate sample_request 3; Analyze (AnalyzeRequest.mk "u" "too short");
             Analyze (AnalyzeRequest.mk "v" phrased_text)]) !! "u" =
  Some (signature_of (fifty_words ++ ".")).
Proof.
  apply (run_last_analysis _ _ (AnalyzeRequest.mk "u" (fifty_words ++ "."))).
  - vm_compute. lia.
  - intros r' [E | [E | [E | []]]] Hu; [discriminate E | | ].
    + injection E as <-. vm_compute. lia.
    + injection E as <-. discriminate Hu.
Defined.

(** X6: after any history from the empty store, a generation for a user
    succeeds exactly when the history holds an analysis of at least 50
    words for that user. *)
Theorem generate_succeeds_iff_analysed (cs : list Call) (g : GenerateRequest.t)
    (draw : Z) :
  (exists resp, snd (generate_with_twin (run cs) g draw) = inr resp) <->
  (exists r, In (Analyze r) cs /\
             AnalyzeRequest.user_id r = GenerateRequest.user_id g /\
             (50 <= word_count (AnalyzeRequest.corpus_text r))%nat).
Proof.
  rewrite <- run_lookup. split.
  - intros [resp H]. now apply generate_with_twin_inr in H as [H _].
  - intros [asm H]. rewrite (generate_with_twin_some _ _ _ _ H). eauto.
Qed.

(** ** Every stored model comes from an analysis *)

Lemma fold_serve_origin cs db uid asm :
  fold_left serve cs db !! uid = Some asm ->
  db !! uid = Some asm \/
  exists r, In (Analyze r) cs /\ AnalyzeRequest.user_id r = uid /\
            (50 <= word_count (AnalyzeRequest.corpus_text r))%nat /\
            asm = signature_of (AnalyzeRequest.corpus_text r).
Proof.
  revert db. induction cs as [| c cs IH]; intros db H; [now left |].
  cbn [fold_left] in H. destruct (IH _ H) as [Hc | (r & Hin & Hu & Hl & E)].
  - destruct c as [r | g draw]; cbn [serve] in Hc.
    + destruct (Nat.lt_ge_cases (word_count (AnalyzeRequest.corpus_text r)) 50) as [Hs | Hl].
      * rewrite analyze_corpus_short in Hc by exact Hs. now left.
      * rewrite analyze_corpus_long in Hc by exact Hl. cbn [fst] in Hc.
        destruct (decide (AnalyzeRequest.user_id r = uid)) as [Eu | Nu].
        -- rewrite Eu, lookup_insert_eq in Hc. injection Hc as <-.
           right. exists r. split; [now left | auto].
        -- rewrite lookup_insert_ne in Hc by exact Nu. now left.
    + rewrite generate_with_twin_store in Hc. now left.
  - right. exists r. split; [now right | auto].
Qed.

Lemma signature_of_avg_nonneg text : (0 <= avg_sentence_length (signature_of text))%Q.
Proof. apply round2_nonneg. Qed.

Lemma signature_of_diversity_range text :
  (0 <= lexical_diversity (signature_of text) <= 1)%Q.
Proof.
  unfold signature_of. cbn [lexical_diversity].
  split; [apply round2_nonneg |].
  pose proof (size_list_to_set_le (PyStr.split (PyStr.lower text))) as Hsz.
  destruct (PyStr.split (PyStr.lower text)) as [| w ws] eqn:Hw.
  - vm_compute. discriminate.
  - rewrite <- round2_one. apply round2_mono.
    + apply nearest_nonneg. cbn [length]. lia.
    + apply nearest_mono; cbn [length] in *; lia.
Qed.

(** X7: after any history from the empty store, every stored model is
    the signature of a text of at least 50 words that was analysed for
    that user; so its average sentence length is not negative, its
    lexical diversity lies in [0, 1] and its common phrases are known
    phrases in the list's order. *)
Theorem stored_models_invariant (cs : list Call) (uid : string)
    (asm : AuthorialSignatureModel) :
  run cs !! uid = Some asm ->
  (exists r, In (Analyze r) cs /\ AnalyzeRequest.user_id r = uid /\
             (50 <= word_count (AnalyzeRequest.corpus_text r))%nat /\
             asm = signature_of (AnalyzeRequest.corpus_text r)) /\
  (0 <= avg_sentence_length asm)%Q /\
  (0 <= lexical_diversity asm <= 1)%Q /\
  sublist (common_phrases asm) known_phrases.
Proof.
  intros H. apply fold_serve_origin in H as [H | (r & Hin & Hu & Hl & ->)].
  - unfold FAKE_USER_DATABASE in H. rewrite lookup_empty in H. discriminate.
  - split; [now exists r |]. split; [apply signature_of_avg_nonneg |].
    split; [apply signature_of_diversity_range | apply filter_sublist].
Qed.

Lemma stored_models_invariant_witness :
  (exists r, In (Analyze r) [Analyze (AnalyzeRequest.mk "u" phrased_text);
                             Generate sample_request 3] /\
             AnalyzeRequest.user_id r = "u" /\
             (50 <= word_count (AnalyzeRequest.corpus_text r))%nat /\
             signature_of phrased_text = signature_of (AnalyzeRequest.corpus_text r)) /\
  (0 <= avg_sentence_length (signature_of phrased_text))%Q /\
  (0 <= lexical_diversity (signature_of phrased_text) <= 1)%Q /\
  sublist (common_phrases (signature_of phrased_text)) known_phrases.
Proof.
  apply (stored_models_invariant
           [Analyze (AnalyzeRequest.mk "u" phrased_text); Generate sample_request 3] "u").
  vm_compute. reflexivity.
Defined.

(** ** Letter case *)

Lemma lower_char_idem c : lower_char (lower_char c) = lower_char c.
Proof. destruct c as [[] [] [] [] [] [] [] []]; reflexivity. Qed.

Lemma lower_idem s : PyStr.lower (PyStr.lower s) = PyStr.lower s.
Proof.
  induction s as [| c s IH]; [reflexivity |].
  cbn [PyStr.lower]. now rewrite lower_char_idem, IH.
Qed.

Lemma lower_char_stop c : Ascii.eqb (lower_char c) "." = Ascii.eqb c ".".
Proof. destruct c as [[] [] [] [] [] [] [] []]; reflexivity. Qed.

Lemma blank_lower s : blank (PyStr.lower s) = blank s.
Proof.
  induction s as [| c s IH]; [reflexivity |].
  cbn [PyStr.lower blank]. now rewrite isspace_lower_char, IH.
Qed.

Lemma split_on_stop_lower s :
  split_on "." (PyStr.lower s) = map PyStr.lower (split_on "." s).
Proof.
  induction s as [| c s IH]; [reflexivity |].
  cbn [PyStr.lower split_on]. rewrite lower_char_stop, IH.
  destruct (Ascii.eqb c "."); [reflexivity |].
  symmetry. now apply map_cons_head.
Qed.

Lemma filter_map_commute {A} (f : A -> A) (p : A -> bool) (l : list A) :
  (forall x, p (f x) = p x) ->
  List.filter p (map f l) = map f (List.filter p l).
Proof.
  intros H. induction l as [| x l IH]; [reflexivity |].
  cbn [map List.filter]. rewrite H. destruct (p x); cbn [map]; now rewrite IH.
Qed.

Lemma sentences_of_lower s :
  sentences_of (PyStr.lower s) = map PyStr.lower (sentences_of s).
Proof.
  unfold sentences_of. rewrite split_on_stop_lower.
  apply filter_map_commute. intros x. now rewrite !strip_length_pos, blank_lower.
Qed.

Lemma word_count_lower s : word_count (PyStr.lower s) = word_count s.
Proof. unfold word_count. now rewrite split_lower, length_map. Qed.

Lemma signature_of_lower s : signature_of (PyStr.lower s) = signature_of s.
Proof.
  unfold signature_of.
  rewrite sentences_of_lower, word_count_lower, lower_idem, length_map.
  now destruct (sentences_of s).
Qed.

(** X8: the analysis ignores letter case: two texts with the same
    lower-casing get the same answer, the same signature model or the
    same rejection. *)
Theorem analyze_case_insensitive (db1 db2 : Database) (uid1 uid2 text1 text2 : string) :
  PyStr.lower text1 = PyStr.lower text2 ->
  snd (analyze_corpus db1 (AnalyzeRequest.mk uid1 text1)) =
  snd (analyze_corpus db2 (AnalyzeRequest.mk uid2 text2)).
Proof.
  intros E.
  assert (Hw : word_count text1 = word_count text2).
  { now rewrite <- (word_count_lower text1), E, word_count_lower. }
  assert (Hs : signature_of text1 = signature_of text2).
  { now rewrite <- (signature_of_lower text1), E, signature_of_lower. }
  destruct (Nat.lt_ge_cases (word_count text2) 50) as [Hlt | Hge].
  - rewrite !analyze_corpus_short; [reflexivity | exact Hlt |].
    cbn [AnalyzeRequest.corpus_text]. now rewrite Hw.
  - rewrite !analyze_corpus_long; [| exact Hge |].
    + cbn [snd AnalyzeRequest.corpus_text]. now rewrite Hs.
    + cbn [AnalyzeRequest.corpus_text]. now rewrite Hw.
Qed.

Lemma analyze_case_insensitive_witness :
  snd (analyze_corpus FAKE_USER_DATABASE (AnalyzeRequest.mk "u" phrased_text)) =
  snd (analyze_corpus sample_db
         (AnalyzeRequest.mk "v"
            ("HOWEVER, " ++ fifty_words ++ " It Is Clear That, For Example, this ends."))).
Proof. apply analyze_case_insensitive. vm_compute. reflexivity. Defined.

(** ** The sentence count at its edges *)







(** ** The average is at most the word count *)

Lemma Qle_antisym_eq (x y : Q) : (x <= y)%Q -> (y <= x)%Q -> (x == y)%Q.
Proof. apply Qle_antisym. Qed.

Lemma rhe_one k : round_half_even k 1 = k.
Proof. rewrite <- (Z.mul_1_r k) at 1. apply rhe_exact. lia. Qed.

(** Integers below 2^53 are floats. *)
Lemma nearest_int w : 0 < w < 2 ^ 53 -> (nearest w 1 == inject_Z w)%Q.
Proof.
  intros [Hw0 Hw1].
  destruct (binade_spec w 1 Hw0 ltac:(lia)) as [L _].
  assert (He : binade w 1 <= 0).
  { assert (Hlt : (p2 (binade w 1 + 52) < p2 53)%Q).
    { eapply Qle_lt_trans; [exact L |]. rewrite frac_int, <- (p2_inject 53) by lia.
      now rewrite <- Zlt_Qlt. }
    apply Qpower_lt_compat_l_inv in Hlt; [lia | reflexivity]. }
  destruct (scale 2 w 1 (binade w 1)) as [n' d'] eqn:Hs.
  rewrite (nearest_value w 1 n' d' Hw0 Hs).
  unfold scale in Hs. destruct (Z.leb_spec 0 (binade w 1)) as [H0 | H0].
  - assert (E : binade w 1 = 0) by lia. rewrite E in *. injection Hs as <- <-.
    change (1 * 2 ^ 0) with 1. rewrite rhe_one.
    unfold p2. change (2 ^ 0)%Q with 1%Q. ring.
  - injection Hs as <- <-. rewrite rhe_one.
    rewrite inject_Z_mult, (p2_inject (- binade w 1)) by lia.
    rewrite p2_opp. field. apply p2_nz.
Qed.

Lemma nearest_ratio n1 d1 n2 d2 :
  0 < d1 -> 0 < d2 -> n1 * d2 = n2 * d1 -> (nearest n1 d1 == nearest n2 d2)%Q.
Proof. intros H1 H2 E. apply Qle_antisym; apply nearest_mono; lia. Qed.

Lemma round2_Qeq x y : (0 <= x)%Q -> (x == y)%Q -> (round2 x == round2 y)%Q.
Proof.
  intros Hx E. apply Qle_antisym; apply round2_mono.
  - exact Hx.
  - rewrite E. apply Qle_refl.
  - now rewrite <- E.
  - rewrite E. apply Qle_refl.
Qed.

Lemma round2_int w : 0 < w < 2 ^ 53 -> (round2 (nearest w 1) == inject_Z w)%Q.
Proof.
  intros Hw. rewrite (round2_Qeq _ (inject_Z w)).
  - unfold round2. cbn [Qnum Qden inject_Z].
    rewrite rhe_one.
    rewrite (nearest_ratio (100 * w) 100 w 1) by lia. now apply nearest_int.
  - apply nearest_nonneg. lia.
  - now apply nearest_int.
Qed.

Lemma split_on_none s :
  PyStr.contains "." s = false -> split_on "." s = [s].
Proof.
  induction s as [| c s IH]; intros H; [reflexivity |].
  cbn [PyStr.contains startswith] in H. apply orb_false_iff in H as [Hc Hs].
  rewrite andb_true_r in Hc. cbn [split_on].
  rewrite Ascii.eqb_sym, Hc, (IH Hs). reflexivity.
Qed.

Lemma split_blank s : blank s = true -> PyStr.split s = [].
Proof.
  intros H. rewrite <- (append_nil_r s). now rewrite split_app_blank.
Qed.

(** X10: for a text of fewer than 2^53 words, the average sentence
    length of a successful analysis is at most the word count, and it
    is the word count when the text has no full stop at all (the whole
    text is then one sentence). *)
Theorem avg_sentence_length_at_most_words (db : Database) (request : AnalyzeRequest.t)
    (asm : AuthorialSignatureModel) :
  snd (analyze_corpus db request) = inr asm ->
  let text := AnalyzeRequest.corpus_text request in
  Z.of_nat (word_count text) < 2 ^ 53 ->
  (avg_sentence_length asm <= inject_Z (Z.of_nat (word_count text)))%Q /\
  (PyStr.contains "." text = false ->
   (avg_sentence_length asm == inject_Z (Z.of_nat (word_count text)))%Q).
Proof.
  intros H text Hbig. apply analyze_corpus_inr in H as [Hwc ->]. fold text in Hwc |- *.
  assert (Hw : 0 < Z.of_nat (word_count text) < 2 ^ 53) by lia.
  unfold signature_of. cbn [avg_sentence_length]. split.
  - destruct (sentences_of text) as [| s l] eqn:E.
    + apply Qle_trans with (inject_Z 50); [vm_compute; discriminate |].
      rewrite <- Zle_Qle. lia.
    + rewrite <- (round2_int _ Hw). apply round2_mono.
      * apply nearest_nonneg. cbn [length]. lia.
      * apply nearest_mono; cbn [length]; lia.
  - intros Hdot.
    assert (Hb : blank text = false).
    { destruct (blank text) eqn:Hb; [| reflexivity].
      unfold word_count in Hwc. rewrite (split_blank text Hb) in Hwc. cbn in Hwc. lia. }
    assert (Hs : sentences_of text = [text]).
    { unfold sentences_of. rewrite (split_on_none text Hdot).
      cbn [List.filter]. now rewrite strip_length_pos, Hb. }
    rewrite Hs. cbn [length Z.of_nat Pos.of_succ_nat]. now apply round2_int.
Qed.

Lemma avg_sentence_length_at_most_words_witness :
  (avg_sentence_length (signature_of fifty_words) <= inject_Z (Z.of_nat (word_count fifty_words)))%Q /\
  (avg_sentence_length (signature_of fifty_words) == inject_Z (Z.of_nat (word_count fifty_words)))%Q.
Proof.
  destruct (avg_sentence_length_at_most_words FAKE_USER_DATABASE
              (AnalyzeRequest.mk "u" fifty_words) (signature_of fifty_words))
    as [H1 H2].
  - vm_compute. reflexivity.
  - vm_compute. reflexivity.
  - split; [exact H1 | apply H2]. vm_compute. reflexivity.
Defined.

(** ** When the lexical diversity is above zero *)

Lemma size_list_to_set_cons_pos (w : string) (ws : list string) :
  (1 <= size (list_to_set (w :: ws) : gset string))%nat.
Proof.
  rewrite list_to_set_cons, size_union_alt, size_singleton. lia.
Qed.

(** X11: the lexical diversity of a successful analysis is above zero
    whenever the words are at most 200 times as many as the distinct
    lower-cased words; so it is above zero for every accepted text of
    at most 200 words. *)
Theorem lexical_diversity_positive (db : Database) (request : AnalyzeRequest.t)
    (asm : AuthorialSignatureModel) :
  snd (analyze_corpus db request) = inr asm ->
  let words := PyStr.split (PyStr.lower (AnalyzeRequest.corpus_text request)) in
  ((length words <= 200 * size (list_to_set words : gset string))%nat ->
   (0 < lexical_diversity asm)%Q) /\
  ((word_count (AnalyzeRequest.corpus_text request) <= 200)%nat ->
   (0 < lexical_diversity asm)%Q).
Proof.
  intros H words. apply analyze_corpus_inr in H as [Hwc ->].
  assert (Hlen : length words = word_count (AnalyzeRequest.corpus_text request)).
  { unfold words, word_count. now rewrite split_lower, length_map. }
  assert (Hmain : (length words <= 200 * size (list_to_set words : gset string))%nat ->
                  (0 < lexical_diversity
                         (signature_of (AnalyzeRequest.corpus_text request)))%Q).
  { unfold signature_of. cbn [lexical_diversity]. fold words.
    destruct words as [| w ws] eqn:Hw; [cbn in Hlen; lia |]. rewrite <- Hw in *.
    intros Hle. eapply Qlt_le_trans; [exact round2_const_pos |].
    apply round2_mono.
    - apply nearest_nonneg. lia.
    - apply nearest_mono; lia. }
  split; [exact Hmain |].
  intros Hsmall. apply Hmain.
  destruct words as [| w ws] eqn:Hw; [cbn in Hlen; lia |].
  pose proof (size_list_to_set_cons_pos w ws). rewrite Hlen. lia.
Qed.

Lemma lexical_diversity_positive_witness :
  (0 < lexical_diversity (signature_of phrased_text))%Q /\
  (0 < lexical_diversity (signature_of phrased_text))%Q.
Proof.
  destruct (lexical_diversity_positive FAKE_USER_DATABASE
              (AnalyzeRequest.mk "u" phrased_text) (signature_of phrased_text))
    as [H1 H2].
  - vm_compute. reflexivity.
  - split; [apply H1 | apply H2]; vm_compute; lia.
Defined.

(** ** What a generation depends on *)

(** X12: the rating of a successful generation is decided by the random
    draw alone: two successful generations with the same draw carry the
    same score and label, whatever the stores, users, prompts and tone
    levels. *)
Theorem rating_depends_on_draw_only (db1 db2 : Database)
    (g1 g2 : GenerateRequest.t) (draw : Z) (resp1 resp2 : GenerateResponse) :
  snd (generate_with_twin db1 g1 draw) = inr resp1 ->
  snd (generate_with_twin db2 g2 draw) = inr resp2 ->
  aegis_rating resp1 = aegis_rating resp2.
Proof.
  intros H1 H2.
  apply generate_with_twin_inr in H1 as [_ ->].
  apply generate_with_twin_inr in H2 as [_ ->]. reflexivity.
Qed.

Lemma rating_depends_on_draw_only_witness :
  aegis_rating
    (mkGenerateResponse
       (sample_text_of 7 (avg_sentence_length (signature_of (fifty_words ++ "."))))
       (rating_of 3)) =
  aegis_rating
    (mkGenerateResponse
       (sample_text_of 0 (avg_sentence_length (signature_of phrased_text)))
       (rating_of 3)).
Proof.
  apply (rating_depends_on_draw_only sample_db
           (fst (analyze_corpus sample_db (AnalyzeRequest.mk "v" phrased_text)))
           sample_request (GenerateRequest.mk "v" "Another prompt." 0) 3);
    vm_compute; reflexivity.
Defined.

(** X13: of the stored model a generation reads the average sentence
    length only: with the same tone level and draw, two stored models
    with the same average sentence length give the same response,
    whatever their lexical diversity and common phrases. *)
Theorem generate_reads_avg_only (db1 db2 : Database) (g1 g2 : GenerateRequest.t)
    (draw : Z) (asm1 asm2 : AuthorialSignatureModel) :
  db1 !! GenerateRequest.user_id g1 = Some asm1 ->
  db2 !! GenerateRequest.user_id g2 = Some asm2 ->
  avg_sentence_length asm1 = avg_sentence_length asm2 ->
  GenerateRequest.tone_level g1 = GenerateRequest.tone_level g2 ->
  snd (generate_with_twin db1 g1 draw) = snd (generate_with_twin db2 g2 draw).
Proof.
  intros H1 H2 Ha Ht.
  rewrite (generate_with_twin_some _ _ _ _ H1), (generate_with_twin_some _ _ _ _ H2).
  cbn [snd]. now rewrite Ha, Ht.
Qed.

Lemma generate_reads_avg_only_witness :
  snd (generate_with_twin sample_db sample_request 3) =
  snd (generate_with_twin
         (fst (analyze_corpus FAKE_USER_DATABASE (AnalyzeRequest.mk "v" repeated_text)))
         (GenerateRequest.mk "v" "Another prompt." 7) 3).
Proof.
  apply (generate_reads_avg_only _ _ _ _ _
           (signature_of (fifty_words ++ ".")) (signature_of repeated_text));
    vm_compute; reflexivity.
Defined.
